(** * tellduslive: the caching client and its views

    A shallow embedding of [tellduslive.py]: the [Client] with its cache of
    devices and sensors, and the [Device], [Sensor] and [DataItem] views that
    read through that cache.

    Python values are the values the JSON decoder produces.  Methods are
    computations in a state-and-exception monad over the client state; the
    HTTP session is an oracle stored in that state.

    Scope of the model.
    - JSON numbers are integers (ids, method codes, bitmasks); the protocol
      carries no floats, and what the code does on a float is not stated
      here.
    - Strings are byte strings read as ASCII text; a statement that depends
      on the content of a string says so with [ascii_text].
    - The [__str__] methods (they need [str] and [repr] of arbitrary
      values) and [main] are not embedded. *)

From Stdlib Require Import ZArith List String Ascii Bool Lia.
Import ListNotations.
Open Scope string_scope.
Open Scope Z_scope.

Set Warnings "-register-all".

(** ** Python values *)

(** A decoded JSON document.  A [VDict] keeps its items in insertion order
    and holds each key once, as a Python dict does. *)
Inductive value : Type :=
| VNone
| VBool (b : bool)
| VInt (z : Z)
| VStr (s : string)
| VList (l : list value)
| VDict (d : list (string * value)).

Definition kwargs := list (string * value).

(** The exceptions the module can meet.  [OSError] stands for the whole
    family caught by [except (OSError, IOError)]: [IOError] itself and the
    exceptions of [requests], which derive from it. *)
Inductive exn : Type :=
| OSError (detail : value)
| KeyError (key : value)
| TypeError
| AttributeError
| ValueError.

Inductive result (A : Type) : Type :=
| Ret (a : A)
| Raise (e : exn).
Arguments Ret {A} a.
Arguments Raise {A} e.

Definition rbind {A B} (c : result A) (k : A -> result B) : result B :=
  match c with
  | Ret a => k a
  | Raise e => Raise e
  end.

Notation "x <~ c ;; k" := (rbind c (fun x => k))
  (at level 61, c at next level, right associativity).

(** *** Dictionaries with string keys *)

Fixpoint dict_get (d : list (string * value)) (k : string) : option value :=
  match d with
  | [] => None
  | (k', v) :: d' => if String.eqb k' k then Some v else dict_get d' k
  end.

(** [d[k] = v]: an existing key keeps its place, a new key goes last. *)
Fixpoint dict_set (d : list (string * value)) (k : string) (v : value)
  : list (string * value) :=
  match d with
  | [] => [(k, v)]
  | (k', v') :: d' =>
      if String.eqb k' k then (k', v) :: d' else (k', v') :: dict_set d' k v
  end.

(** *** Builtin operations *)

(** [a == b] *)
Fixpoint py_eq (a b : value) {struct a} : bool :=
  match a, b with
  | VNone, VNone => true
  | VBool x, VBool y => Bool.eqb x y
  | VBool x, VInt y => Z.b2z x =? y
  | VInt x, VBool y => x =? Z.b2z y
  | VInt x, VInt y => x =? y
  | VStr x, VStr y => String.eqb x y
  | VList xs, VList ys =>
      (fix go (xs ys : list value) {struct xs} : bool :=
         match xs, ys with
         | [], [] => true
         | x :: xs', y :: ys' => py_eq x y && go xs' ys'
         | _, _ => false
         end) xs ys
  | VDict d, VDict e =>
      Nat.eqb (List.length d) (List.length e) &&
      (fix go (d : list (string * value)) {struct d} : bool :=
         match d with
         | [] => true
         | (k, v) :: d' =>
             match dict_get e k with
             | Some w => py_eq v w
             | None => false
             end && go d'
         end) d
  | _, _ => false
  end.

(** [bool(v)] *)
Definition truthy (v : value) : bool :=
  match v with
  | VNone => false
  | VBool b => b
  | VInt z => negb (z =? 0)
  | VStr s => negb (String.eqb s "")
  | VList l => match l with [] => false | _ => true end
  | VDict d => match d with [] => false | _ => true end
  end.

Definition hashable (v : value) : bool :=
  match v with
  | VList _ | VDict _ => false
  | _ => true
  end.

(** [v[k]] for a string literal [k] *)
Definition py_getitem (v : value) (k : string) : result value :=
  match v with
  | VDict d =>
      match dict_get d k with
      | Some x => Ret x
      | None => Raise (KeyError (VStr k))
      end
  | _ => Raise TypeError
  end.

(** [v[k] = x] for a string literal [k] *)
Definition py_setitem (v : value) (k : string) (x : value) : result value :=
  match v with
  | VDict d => Ret (VDict (dict_set d k x))
  | _ => Raise TypeError
  end.

(** [v.get(k)] *)
Definition py_get (v : value) (k : string) : result value :=
  match v with
  | VDict d =>
      match dict_get d k with
      | Some x => Ret x
      | None => Ret VNone
      end
  | _ => Raise AttributeError
  end.

Definition is_substring (k s : string) : bool :=
  match String.index 0 k s with
  | Some _ => true
  | None => false
  end.

(** [k in v] for a string literal [k] *)
Definition py_contains (k : string) (v : value) : result bool :=
  match v with
  | VDict d => Ret (match dict_get d k with Some _ => true | None => false end)
  | VList l => Ret (existsb (fun x => py_eq x (VStr k)) l)
  | VStr s => Ret (is_substring k s)
  | _ => Raise TypeError
  end.

(** [iter(v)], run to the end *)
Definition py_iter (v : value) : result (list value) :=
  match v with
  | VList l => Ret l
  | VDict d => Ret (map (fun kv => VStr (fst kv)) d)
  | VStr s => Ret (map (fun c => VStr (String c "")) (list_ascii_of_string s))
  | _ => Raise TypeError
  end.

(** [int(v)].  An ASCII string is stripped of surrounding white space (tab,
    line feed, vertical tab, form feed, carriage return, space), then read
    as an optional sign and decimal digits, single underscores allowed
    between digits; more than [int_max_str_digits] digits are refused, as
    CPython does from 3.11 on with its default limit. *)
Definition is_space (c : ascii) : bool :=
  let n := nat_of_ascii c in
  ((9 <=? n) && (n <=? 13) || (n =? 32))%nat.

Definition digit_of (c : ascii) : option Z :=
  let n := Z.of_nat (nat_of_ascii c) in
  if (48 <=? n) && (n <=? 57) then Some (n - 48) else None.

Fixpoint lstrip (l : list ascii) : list ascii :=
  match l with
  | [] => []
  | c :: r => if is_space c then lstrip r else l
  end.

Definition strip (l : list ascii) : list ascii :=
  rev (lstrip (rev (lstrip l))).

Fixpoint digits (acc : Z) (after_digit : bool) (l : list ascii) : option Z :=
  match l with
  | [] => if after_digit then Some acc else None
  | c :: r =>
      match digit_of c with
      | Some d => digits (acc * 10 + d) true r
      | None =>
          if Ascii.eqb c "_" && after_digit then digits acc false r else None
      end
  end.

Definition int_max_str_digits : nat := 4300.

Definition count_digits (l : list ascii) : nat :=
  List.length (filter (fun c => match digit_of c with
                                | Some _ => true
                                | None => false
                                end) l).

Definition literal (l : list ascii) : option Z :=
  if (int_max_str_digits <? count_digits l)%nat then None
  else digits 0 false l.

Definition int_of_string (s : string) : option Z :=
  match strip (list_ascii_of_string s) with
  | "+"%char :: r => literal r
  | "-"%char :: r => option_map Z.opp (literal r)
  | l => literal l
  end.

(** Every character of the string is ASCII. *)
Definition is_ascii (s : string) : bool :=
  forallb (fun c => (nat_of_ascii c <? 128)%nat) (list_ascii_of_string s).

(** [int(v)] on the values of the model: [null], booleans, integers,
    strings, lists and objects. *)
Definition py_int (v : value) : result value :=
  match v with
  | VInt z => Ret (VInt z)
  | VBool b => Ret (VInt (Z.b2z b))
  | VStr s =>
      match int_of_string s with
      | Some z => Ret (VInt z)
      | None => Raise ValueError
      end
  | _ => Raise TypeError
  end.

(** *** Dictionaries with arbitrary hashable keys (the two caches) *)

Definition cache := list (value * value).

Fixpoint cache_get (c : cache) (k : value) : option value :=
  match c with
  | [] => None
  | (k', v) :: c' => if py_eq k' k then Some v else cache_get c' k
  end.

Fixpoint cache_set (c : cache) (k v : value) : cache :=
  match c with
  | [] => [(k, v)]
  | (k', v') :: c' =>
      if py_eq k' k then (k', v) :: c' else (k', v') :: cache_set c' k v
  end.

(** [c[k]] *)
Definition cache_getitem (c : cache) (k : value) : result value :=
  if hashable k then
    match cache_get c k with
    | Some v => Ret v
    | None => Raise (KeyError k)
    end
  else Raise TypeError.

(** ** Module constants *)

Definition API_URL : string := "https://api.telldus.com/json/".
Definition TIMEOUT_seconds : Z := 5.

Definition TURNON : Z := 1.
Definition TURNOFF : Z := 2.
Definition BELL : Z := 4.
Definition TOGGLE : Z := 8.
Definition DIM : Z := 16.
Definition LEARN : Z := 32.
Definition UP : Z := 128.
Definition DOWN : Z := 256.
Definition STOP : Z := 512.
Definition RGBW : Z := 1024.
Definition THERMOSTAT : Z := 2048.

Definition SUPPORTED_METHODS : Z :=
  Z.lor TURNON (Z.lor TURNOFF (Z.lor DIM (Z.lor UP (Z.lor DOWN STOP)))).

Definition STR_METHODS : list (Z * string) :=
  [ (TURNON, "TURNON"); (TURNOFF, "TURNOFF"); (BELL, "BELL");
    (TOGGLE, "TOGGLE"); (DIM, "DIM"); (LEARN, "LEARN"); (UP, "UP");
    (DOWN, "DOWN"); (STOP, "STOP"); (RGBW, "RGBW");
    (THERMOSTAT, "THERMOSTAT") ].

Definition API_METHODS : list (Z * string) :=
  [ (TURNON, "device/turnOn"); (TURNOFF, "device/turnOff");
    (DIM, "device/dim"); (UP, "device/up"); (DOWN, "device/down");
    (STOP, "device/stop") ].

Fixpoint table_get (t : list (Z * string)) (k : Z) : option string :=
  match t with
  | [] => None
  | (k', v) :: t' => if k' =? k then Some v else table_get t' k
  end.

(** ** The client state and its monad *)

(** One signed GET as the session sees it.  [urljoin(API_URL, url)] is kept
    as the pair of its arguments. *)
Record Request : Type := mkRequest {
  req_base : string;
  req_url : string;
  req_params : kwargs;
  req_timeout : Z
}.

(** What the environment makes of a request.  [Body] and [Raises] are what
    [session.get], [raise_for_status] and [response.json] together come to:
    the decoded body, or the exception one of them raised.  [BadUrl] says
    that [urljoin] refused the path with a [ValueError], before anything
    was sent. *)
Inductive Outcome : Type :=
| Body (json : value)
| Raises (e : exn)
| BadUrl.

(** The remote service: its answer may depend on the requests sent before
    (latest first). *)
Definition Session := list Request -> Request -> Outcome.

Inductive LogEntry : Type :=
| LogDebugRequest (r : Request)
| LogDebugResponse (body : value)
| LogError (error : exn).

(** The fields of the [Client] object, with the requests sent so far and
    the records written to [_LOGGER] (latest first). *)
Record State : Type := mkState {
  _session : Session;
  sent : list Request;
  logged : list LogEntry;
  _devices : cache;
  _sensors : cache
}.

Definition M (A : Type) : Type := State -> result A * State.

Definition ret {A} (a : A) : M A := fun st => (Ret a, st).

Definition raise {A} (e : exn) : M A := fun st => (Raise e, st).

Definition bind {A B} (c : M A) (k : A -> M B) : M B :=
  fun st =>
    match c st with
    | (Ret a, st') => k a st'
    | (Raise e, st') => (Raise e, st')
    end.

Definition lift {A} (r : result A) : M A := fun st => (r, st).

(** [try: body except catches as e: handler e] *)
Definition try_except {A} (body : M A) (catches : exn -> bool)
    (handler : exn -> M A) : M A :=
  fun st =>
    match body st with
    | (Ret a, st') => (Ret a, st')
    | (Raise e, st') => if catches e then handler e st' else (Raise e, st')
    end.

Notation "x <- c ;; k" := (bind c (fun x => k))
  (at level 61, c at next level, right associativity).
Notation "c ;;; k" := (bind c (fun _ => k))
  (at level 61, right associativity).

Definition log_write (e : LogEntry) : M unit :=
  fun st =>
    (Ret tt, mkState (_session st) (sent st) (e :: logged st)
                     (_devices st) (_sensors st)).

(** [urljoin] refuses only a path with a square bracket in its network
    location or with a character outside ASCII; which of those it refuses
    depends on the version of the library and is left to the session. *)
Definition joinable (url : string) : bool :=
  forallb (fun c => (nat_of_ascii c <? 128)%nat &&
                    negb (Ascii.eqb c "[") && negb (Ascii.eqb c "]"))
          (list_ascii_of_string url).

(** The answer of the session to [r].  On a path [urljoin] always accepts,
    [BadUrl] is no possible answer; a session that gives it there is read
    as a transport that raises [ValueError]. *)
Definition answer (st : State) (r : Request) : Outcome :=
  match _session st (sent st) r with
  | BadUrl => if joinable (req_url r) then Raises ValueError else BadUrl
  | o => o
  end.

(** [urljoin(base, url)], with the rest of the request to come *)
Definition urljoin (base url : string) (params : kwargs) : M Request :=
  fun st =>
    let r := mkRequest base url params TIMEOUT_seconds in
    match answer st r with
    | BadUrl => (Raise ValueError, st)
    | _ => (Ret r, st)
    end.

Definition session_get (r : Request) : M value :=
  fun st =>
    let st' := mkState (_session st) (r :: sent st) (logged st)
                       (_devices st) (_sensors st) in
    match answer st r with
    | Body v => (Ret v, st')
    | Raises e => (Raise e, st')
    | BadUrl => (Raise ValueError, st')
    end.

(** Passing [**params] to a method whose own parameters are [names]: a
    keyword with one of these names raises [TypeError] (multiple values
    for the argument). *)
Definition has_key (params : kwargs) (name : string) : bool :=
  match dict_get params name with
  | Some _ => true
  | None => false
  end.

Definition bind_kwargs (names : list string) (params : kwargs)
  : result kwargs :=
  if existsb (has_key params) names then Raise TypeError else Ret params.

Definition set_devices (c : cache) : M unit :=
  fun st =>
    (Ret tt, mkState (_session st) (sent st) (logged st) c (_sensors st)).

Definition set_sensors (c : cache) : M unit :=
  fun st =>
    (Ret tt, mkState (_session st) (sent st) (logged st) (_devices st) c).

Definition is_OSError (e : exn) : bool :=
  match e with
  | OSError _ => true
  | _ => false
  end.

(** ** Client *)

Module Client.

(** [self._devices[device_id]] *)
Definition device (device_id : value) : M value :=
  fun st => (cache_getitem (_devices st) device_id, st).

(** [self._sensors[sensor_id]] *)
Definition sensor (sensor_id : value) : M value :=
  fun st => (cache_getitem (_sensors st) sensor_id, st).

(** The body of [request], run with [url] and the keyword dictionary
    [params]. *)
Definition request (url : string) (params : kwargs) : M value :=
  try_except
    (r <- urljoin API_URL url params ;;
     log_write (LogDebugRequest r) ;;;
     response <- session_get r ;;
     log_write (LogDebugResponse response) ;;;
     has_error <- lift (py_contains "error" response) ;;
     if has_error : bool then
       detail <- lift (py_getitem response "error") ;;
       raise (OSError detail)
     else ret response)
    is_OSError
    (fun error => log_write (LogError error) ;;; ret VNone).

(** [execute(method, **params)]: the keywords are bound to
    [execute(self, method, **params)] and passed on in
    [self.request(method, **params)] to [request(self, url, **params)], so a
    keyword named [self], [method] or [url] raises [TypeError] before
    [request] runs.  Then
    [response and response.get('status') == 'success']. *)
Definition execute (method : string) (params : kwargs) : M value :=
  params <- lift (bind_kwargs ["self"; "method"] params) ;;
  params <- lift (bind_kwargs ["self"; "url"] params) ;;
  response <- request method params ;;
  if truthy response then
    status <- lift (py_get response "status") ;;
    ret (VBool (py_eq status (VStr "success")))
  else ret response.

Definition request_user : M value := request "user/profile" [].

Definition devices_params : kwargs :=
  [("supportedMethods", VInt SUPPORTED_METHODS); ("includeIgnored", VInt 0)].

Definition sensors_params : kwargs :=
  [("includeValues", VInt 1); ("includeScale", VInt 1);
   ("includeIgnored", VInt 0)].

Definition request_devices : M value :=
  res <- request "devices/list" devices_params ;;
  if truthy res then lift (py_get res "device") else ret (VList []).

Definition request_sensors : M value :=
  res <- request "sensors/list" sensors_params ;;
  if truthy res then lift (py_get res "sensor") else ret (VList []).

(** [{x['id']: x for x in items}], from the items already listed *)
Fixpoint by_id (acc : cache) (items : list value) : result cache :=
  match items with
  | [] => Ret acc
  | x :: rest =>
      k <~ py_getitem x "id" ;;
      if hashable k then by_id (cache_set acc k x) rest else Raise TypeError
  end.

Definition dict_by_id (v : value) : result cache :=
  items <~ py_iter v ;;
  by_id [] items.

(** The first statement of [update]. *)
Definition update_devices : M unit :=
  listed <- request_devices ;;
  c <- lift (dict_by_id listed) ;;
  set_devices c.

(** The second statement of [update]. *)
Definition update_sensors : M unit :=
  listed <- request_sensors ;;
  c <- lift (dict_by_id listed) ;;
  set_sensors c.

Definition update : M unit :=
  update_devices ;;; update_sensors.

End Client.

(** ** Device view *)

(** A view holds its identity only; the client it refers to is the state
    the computation runs in. *)
Module Device.

Record t : Type := mk { _device_id : value }.

Definition _device (self : t) : M value :=
  Client.device (_device_id self).

Definition device_id (self : t) : M value :=
  ret (_device_id self).

Definition name (self : t) : M value :=
  d <- _device self ;; lift (py_getitem d "name").

Definition state (self : t) : M value :=
  d <- _device self ;; lift (py_getitem d "state").

Definition statevalue (self : t) : M value :=
  d <- _device self ;; lift (py_getitem d "statevalue").

Definition methods (self : t) : M value :=
  d <- _device self ;; lift (py_getitem d "methods").

(** [self._device['state'] = command]: the record is the object the cache
    holds under this id, so the write lands in the cache.  No other cache
    entry shares it: every record is a separate object of the decoded
    response and is filed under its own id. *)
Definition set_state (self : t) (command : Z) : M unit :=
  d <- _device self ;;
  d' <- lift (py_setitem d "state" (VInt command)) ;;
  fun st => set_devices (cache_set (_devices st) (_device_id self) d') st.

(** The body of [_execute], run with [command] and the keyword dictionary
    [params].  The keywords go on to [execute] as [**params], where one
    named [method] or [url] raises [TypeError]. *)
Definition _execute (self : t) (command : Z) (params : kwargs) : M value :=
  let params := dict_set params "id" (_device_id self) in
  api_method <-
    lift (match table_get API_METHODS command with
          | Some m => Ret m
          | None => Raise (KeyError (VInt command))
          end) ;;
  ok <- Client.execute api_method params ;;
  if truthy ok then
    set_state self command ;;;
    ret (VBool true)
  else ret VNone.

(** [self.state == TURNON or self.state == DIM] *)
Definition is_on (self : t) : M value :=
  s <- state self ;;
  if py_eq s (VInt TURNON) then ret (VBool true)
  else
    s' <- state self ;;
    ret (VBool (py_eq s' (VInt DIM))).

Definition is_ValueError (e : exn) : bool :=
  match e with
  | ValueError => true
  | _ => false
  end.

Definition dim_level (self : t) : M value :=
  try_except
    (sv <- statevalue self ;; lift (py_int sv))
    is_ValueError
    (fun _ => ret VNone).

Definition turn_on (self : t) : M value := _execute self TURNON [].
Definition turn_off (self : t) : M value := _execute self TURNOFF [].
Definition dim (self : t) (level : value) : M value :=
  _execute self DIM [("level", level)].
Definition up (self : t) : M value := _execute self UP [].
Definition down (self : t) : M value := _execute self DOWN [].
Definition stop (self : t) : M value := _execute self STOP [].

End Device.

(** ** Sensor and DataItem views *)

Module Sensor.

Record t : Type := mk { _sensor_id : value }.

Definition _sensor (self : t) : M value :=
  Client.sensor (_sensor_id self).

Definition name (self : t) : M value :=
  s <- _sensor self ;; lift (py_getitem s "name").

Definition sensor_id (self : t) : M value :=
  ret (_sensor_id self).

Definition data (self : t) : M value :=
  s <- _sensor self ;; lift (py_getitem s "data").

End Sensor.

Module DataItem.

Record t : Type := mk { _item_id : value * value * value }.

(** [self._item_id[0]] *)
Definition sensor_id (self : t) : M value :=
  ret (fst (fst (_item_id self))).

(** [self._item_id[1]] *)
Definition name (self : t) : M value :=
  ret (snd (fst (_item_id self))).

(** [self._item_id[2]] *)
Definition scale (self : t) : M value :=
  ret (snd (_item_id self)).

Definition item_id (self : t) : M (value * value * value) :=
  ret (_item_id self).

Definition sensor (self : t) : M Sensor.t :=
  sid <- sensor_id self ;;
  ret (Sensor.mk sid).

(** [next((item['value'] for item in items if item['name'] == name and
    item['scale'] == scale), None)], over the items already listed *)
Fixpoint first_value (items : list value) (name scale : value)
  : result value :=
  match items with
  | [] => Ret VNone
  | item :: rest =>
      n <~ py_getitem item "name" ;;
      if py_eq n name then
        s <~ py_getitem item "scale" ;;
        if py_eq s scale then py_getitem item "value"
        else first_value rest name scale
      else first_value rest name scale
  end.

Definition value (self : t) : M value :=
  sn <- sensor self ;;
  d <- Sensor.data sn ;;
  items <- lift (py_iter d) ;;
  n <- name self ;;
  s <- scale self ;;
  lift (first_value items n s).

End DataItem.

(** The members that build views: [Sensor.data_items], [Client.devices],
    [Client.sensors] and [Client.sensor_data_items].  Generators are listed
    in full. *)
Module Views.

Fixpoint items_of (sid : value) (l : list value) : result (list DataItem.t) :=
  match l with
  | [] => Ret []
  | item :: rest =>
      n <~ py_getitem item "name" ;;
      s <~ py_getitem item "scale" ;;
      tl <~ items_of sid rest ;;
      Ret (DataItem.mk (sid, n, s) :: tl)
  end.

Definition data_items (self : Sensor.t) : M (list DataItem.t) :=
  d <- Sensor.data self ;;
  l <- lift (py_iter d) ;;
  lift (items_of (Sensor._sensor_id self) l).

Definition devices : M (list Device.t) :=
  fun st => (Ret (map (fun kv => Device.mk (fst kv)) (_devices st)), st).

Definition sensors : M (list Sensor.t) :=
  fun st => (Ret (map (fun kv => Sensor.mk (fst kv)) (_sensors st)), st).

Fixpoint concat_items (l : list Sensor.t) : M (list DataItem.t) :=
  match l with
  | [] => ret []
  | s :: rest =>
      xs <- data_items s ;;
      ys <- concat_items rest ;;
      ret (xs ++ ys)%list
  end.

Definition sensor_data_items : M (list DataItem.t) :=
  l <- sensors ;; concat_items l.

End Views.

(** ** Auxiliary states *)

Definition note (e : LogEntry) (st : State) : State :=
  mkState (_session st) (sent st) (e :: logged st) (_devices st) (_sensors st).

Definition sending (r : Request) (st : State) : State :=
  mkState (_session st) (r :: sent st) (LogDebugRequest r :: logged st)
          (_devices st) (_sensors st).

(** [except (OSError, IOError) as error: _LOGGER.error(...)], then the
    method ends and returns [None]. *)
Definition handled (e : exn) (st : State) : result value * State :=
  if is_OSError e then (Ret VNone, note (LogError e) st) else (Raise e, st).


(** ** Sample data *)

Module Samples.

Definition lamp : value :=
  VDict [("id", VStr "1"); ("name", VStr "lamp"); ("state", VInt TURNOFF);
         ("statevalue", VStr "42"); ("methods", VInt 19)].

(** A device whose [statevalue] is JSON [null]. *)
Definition switch : value :=
  VDict [("id", VStr "2"); ("name", VStr "switch"); ("state", VInt TURNOFF);
         ("statevalue", VNone); ("methods", VInt 3)].

Definition outdoor : value :=
  VDict [("id", VStr "7"); ("name", VStr "outdoor");
         ("data", VList [VDict [("name", VStr "temp"); ("scale", VStr "0");
                                ("value", VStr "21.5")]])].

Definition timed_out : Outcome := Raises (OSError (VStr "timed out")).

(** A service that answers every request of the protocol. *)
Definition online : Session := fun _ r =>
  if String.eqb (req_url r) "devices/list" then
    Body (VDict [("device", VList [lamp; switch])])
  else if String.eqb (req_url r) "sensors/list" then
    Body (VDict [("sensor", VList [outdoor])])
  else Body (VDict [("status", VStr "success")]).

(** No request gets through. *)
Definition offline : Session := fun _ _ => timed_out.

(** Only [devices/list] fails. *)
Definition devices_down : Session := fun h r =>
  if String.eqb (req_url r) "devices/list" then timed_out else online h r.

(** Only [sensors/list] fails. *)
Definition sensors_down : Session := fun h r =>
  if String.eqb (req_url r) "sensors/list" then timed_out else online h r.

(** Every command is answered with an error payload. *)
Definition refusing : Session := fun _ _ =>
  Body (VDict [("error", VStr "Unknown device")]).

(** A client right after [__init__]. *)
Definition fresh (s : Session) : State := mkState s [] [] [] [].

(** A client whose last refresh went well. *)
Definition cached (s : Session) : State :=
  mkState s [] [] [(VStr "1", lamp); (VStr "2", switch)] [(VStr "7", outdoor)].

End Samples.

(** ** Predicates of the statements *)

(** The transport failed with a transport error, or the decoded body is a
    JSON object. *)
Definition settled (o : Outcome) : Prop :=
  match o with
  | Body (VDict _) => True
  | Raises (OSError _) => True
  | _ => False
  end.

(** A measurement as the data model has it: an object with ['name'],
    ['scale'] and ['value']. *)
Definition is_measurement (item : value) : bool :=
  match item with
  | VDict f =>
      match dict_get f "name", dict_get f "scale", dict_get f "value" with
      | Some _, Some _, Some _ => true
      | _, _, _ => false
      end
  | _ => false
  end.

(** "whose 'name' equals measurement_name and whose 'scale' equals scale" *)
Definition entry_matches (name scale : value) (item : value) : bool :=
  match py_getitem item "name", py_getitem item "scale" with
  | Ret n, Ret s => py_eq n name && py_eq s scale
  | _, _ => false
  end.

(** A device or sensor record as the data model has it: an object whose
    ['id'] can key a dict. *)
Definition is_record (r : value) : bool :=
  match r with
  | VDict f =>
      match dict_get f "id" with
      | Some k => hashable k
      | None => false
      end
  | _ => false
  end.

(** No two keys of the list are equal. *)
Fixpoint distinct_keys (l : list value) : Prop :=
  match l with
  | [] => True
  | k :: r => Forall (fun k2 => py_eq k k2 = false) r /\ distinct_keys r
  end.

(** What every entry of a cache built from [recs] satisfies. *)
Definition filed (recs : list value) (kv : value * value) : Prop :=
  hashable (fst kv) = true /\ In (snd kv) recs /\
  exists k0, py_getitem (snd kv) "id" = Ret k0 /\ py_eq (fst kv) k0 = true.

(** The last record of [recs] whose ['id'] equals [k]. *)
Definition last_with_id (recs : list value) (k : value) : option value :=
  find (fun r => match py_getitem r "id" with
                 | Ret k0 => py_eq k0 k
                 | Raise _ => false
                 end) (rev recs).

(** What subscripting a mapping built from [recs] gives at [k]. *)
Definition subscript (recs : list value) (k : value) : result value :=
  match last_with_id recs k with
  | Some r => Ret r
  | None => Raise (KeyError k)
  end.

(** A measurement whose name and scale are plain values (not lists or
    objects). *)
Definition is_plain_measurement (item : value) : bool :=
  match py_getitem item "name", py_getitem item "scale" with
  | Ret n, Ret s => is_measurement item && hashable n && hashable s
  | _, _ => false
  end.

(** [it] is the data item made from entry [e] of the sensor [sid]. *)
Definition item_from (sid : value) (e : value) (it : DataItem.t) : Prop :=
  exists n s,
    py_getitem e "name" = Ret n /\ py_getitem e "scale" = Ret s /\
    it = DataItem.mk (sid, n, s).

(** ** Device.str_methods (a static method) *)

(** [val & method] for an integer [method] *)
Definition py_and (val : value) (method : Z) : result Z :=
  match val with
  | VInt z => Ret (Z.land z method)
  | VBool b => Ret (Z.land (Z.b2z b) method)
  | _ => Raise TypeError
  end.

(** The loop over the keys of [STR_METHODS]. *)
Fixpoint names_of (val : value) (keys : list Z) : result (list string) :=
  match keys with
  | [] => Ret []
  | method :: rest =>
      bits <~ py_and val method ;;
      if bits =? 0 then names_of val rest
      else
        n <~ match table_get STR_METHODS method with
             | Some n => Ret n
             | None => Raise (KeyError (VInt method))
             end ;;
        tl <~ names_of val rest ;;
        Ret (n :: tl)
  end.

Definition str_methods (val : value) : result string :=
  res <~ names_of val (map fst STR_METHODS) ;;
  Ret (String.concat "|" res).

(** All the method codes of the registry, or-ed together. *)
Definition registry_mask : Z :=
  fold_right Z.lor 0 (map fst STR_METHODS).

(** ** Services with malformed answers *)

(** [devices/list] lists a record without ['id']. *)
Definition nameless_device : Session := fun _ _ =>
  Body (VDict [("device", VList [VDict [("name", VStr "x")]])]).

(** [devices/list] is answered, [sensors/list] comes without its list. *)
Definition sensors_busy : Session := fun _ r =>
  if String.eqb (req_url r) "devices/list"
  then Body (VDict [("device", VList [Samples.switch])])
  else Body (VDict [("status", VStr "busy")]).

(** A keyword of [params] has the name of a parameter of [execute] or of
    [request]. *)
Definition colliding (params : kwargs) : bool :=
  has_key params "self" || has_key params "method" || has_key params "url".

(** [urljoin] refuses the path of this request. *)
Definition url_refused (st : State) (url : string) (params : kwargs) : bool :=
  match answer st (mkRequest API_URL url params TIMEOUT_seconds) with
  | BadUrl => true
  | _ => false
  end.

(** A string value holds ASCII text only; other values pass. *)
Definition ascii_text (v : value) : Prop :=
  match v with
  | VStr s => is_ascii s = true
  | _ => True
  end.
(** * Properties *)

Ltac break_match :=
  match goal with
  | |- context [match ?x with _ => _ end] => destruct x eqn:?
  | H : context [match ?x with _ => _ end] |- _ => destruct x eqn:?
  end.

Ltac unfold_monad :=
  unfold try_except, bind, ret, raise, lift, log_write, session_get,
    set_devices, set_sensors in *.

(** ** Python equality on hashable values *)

Lemma py_eq_refl (k : value) : hashable k = true -> py_eq k k = true.
Proof.
  destruct k; simpl; try discriminate; intros _; trivial.
  - apply Bool.eqb_reflx.
  - apply Z.eqb_refl.
  - apply String.eqb_refl.
Qed.

Lemma py_eq_hashable (a b : value) :
  hashable a = true -> py_eq a b = true -> hashable b = true.
Proof. destruct a, b; simpl; congruence. Qed.

Lemma py_eq_hashable_l (a b : value) :
  hashable b = true -> py_eq a b = true -> hashable a = true.
Proof. destruct a, b; simpl; congruence. Qed.

Lemma py_eq_sym (a b : value) : hashable a = true -> py_eq a b = py_eq b a.
Proof.
  destruct a, b; simpl; try discriminate; intros _; trivial.
  - destruct b0, b; reflexivity.
  - apply Z.eqb_sym.
  - apply Z.eqb_sym.
  - apply Z.eqb_sym.
  - apply String.eqb_sym.
Qed.

Lemma py_eq_trans (a b c : value) :
  hashable a = true ->
  py_eq a b = true -> py_eq b c = true -> py_eq a c = true.
Proof.
  destruct a, b, c; simpl; try discriminate; intros _; trivial;
    rewrite ?Z.eqb_eq, ?String.eqb_eq, ?Bool.eqb_true_iff;
    intros; subst; trivial.
  destruct b0, b; simpl in *; congruence.
Qed.

Lemma py_eq_str (v : value) (s : string) :
  py_eq v (VStr s) = true <-> v = VStr s.
Proof.
  destruct v; simpl; split; try discriminate.
  - intros H. apply String.eqb_eq in H. now subst.
  - intros H. injection H as ->. apply String.eqb_refl.
Qed.

(** ** The string-keyed and the cache dictionaries *)

Lemma dict_get_set_same d k v : dict_get (dict_set d k v) k = Some v.
Proof.
  induction d as [|[k' v'] d IH]; simpl.
  - now rewrite String.eqb_refl.
  - destruct (String.eqb k' k) eqn:E; simpl; rewrite E; auto.
Qed.

Lemma dict_get_set_other d k v k2 :
  k2 <> k -> dict_get (dict_set d k v) k2 = dict_get d k2.
Proof.
  intros Hne. induction d as [|[k' v'] d IH]; simpl.
  - destruct (String.eqb k k2) eqn:E; trivial.
    apply String.eqb_eq in E. congruence.
  - destruct (String.eqb k' k) eqn:E; simpl.
    + apply String.eqb_eq in E. subst k'.
      destruct (String.eqb k k2) eqn:E2; trivial.
      apply String.eqb_eq in E2. congruence.
    + now rewrite IH.
Qed.

Lemma cache_get_set_same c k v :
  hashable k = true -> cache_get (cache_set c k v) k = Some v.
Proof.
  intros Hk. induction c as [|[k' v'] c IH]; simpl.
  - now rewrite py_eq_refl.
  - destruct (py_eq k' k) eqn:E; simpl; rewrite E; auto.
Qed.

(** ** What a request does *)

(** [Client.request], one case per way through its body. *)
Lemma request_eq url params st :
  Client.request url params st =
  let r := mkRequest API_URL url params TIMEOUT_seconds in
  match _session st (sent st) r with
  | Raises e => handled e (sending r st)
  | Body v =>
      let st2 := note (LogDebugResponse v) (sending r st) in
      match py_contains "error" v with
      | Raise e => handled e st2
      | Ret false => (Ret v, st2)
      | Ret true =>
          match py_getitem v "error" with
          | Ret detail => handled (OSError detail) st2
          | Raise e => handled e st2
          end
      end
  | BadUrl =>
      if joinable url then (Raise ValueError, sending r st)
      else (Raise ValueError, st)
  end.
Proof.
  destruct st as [se h lg dv sn].
  unfold Client.request, handled, note, sending, urljoin, session_get, answer.
  unfold try_except, bind, ret, raise, lift, log_write.
  cbv beta iota zeta delta [_session sent logged _devices _sensors req_url].
  destruct (se h _) as [v|e|] eqn:E.
  - cbv beta iota. rewrite E. cbv beta iota.
    destruct (py_contains "error" v) as [[|]|e]; cbn; trivial.
    destruct (py_getitem v "error") as [d|e]; cbn; trivial.
  - cbv beta iota. rewrite E. reflexivity.
  - destruct (joinable url) eqn:J; cbv beta iota; [|reflexivity].
    rewrite E, J. reflexivity.
Qed.

Lemma handled_frame e st :
  let st' := snd (handled e st) in
  _devices st' = _devices st /\ _sensors st' = _sensors st /\
  _session st' = _session st.
Proof. unfold handled. destruct (is_OSError e); cbn; auto. Qed.

Lemma request_frame url params st :
  let st' := snd (Client.request url params st) in
  _devices st' = _devices st /\ _sensors st' = _sensors st /\
  _session st' = _session st.
Proof.
  rewrite request_eq. cbn zeta.
  repeat break_match;
    try (match goal with
         | |- context [handled ?e ?s] => apply (handled_frame e s)
         end);
    cbn; auto.
Qed.

Lemma execute_eq method params st :
  Client.execute method params st =
  if colliding params then (Raise TypeError, st)
  else
    match Client.request method params st with
    | (Ret response, st') =>
        if truthy response then
          match py_get response "status" with
          | Ret status => (Ret (VBool (py_eq status (VStr "success"))), st')
          | Raise e => (Raise e, st')
          end
        else (Ret response, st')
    | (Raise e, st') => (Raise e, st')
    end.
Proof.
  unfold Client.execute, colliding, bind_kwargs. cbn [existsb].
  unfold bind at 1, lift at 1.
  destruct (has_key params "self") eqn:Hs; [reflexivity|].
  destruct (has_key params "method"); [reflexivity|].
  cbn [orb]. unfold bind at 1, lift at 1. rewrite Hs.
  destruct (has_key params "url"); [reflexivity|].
  cbn [orb]. unfold bind.
  destruct (Client.request method params st) as [[resp|e] st']; trivial.
  destruct (truthy resp); reflexivity.
Qed.

Lemma execute_frame method params st :
  let st' := snd (Client.execute method params st) in
  _devices st' = _devices st /\ _sensors st' = _sensors st /\
  _session st' = _session st.
Proof.
  cbn zeta. rewrite execute_eq.
  destruct (colliding params); [cbn; auto|].
  pose proof (request_frame method params st) as H. cbn zeta in H.
  destruct (Client.request method params st) as [[resp|e] st1]; cbn in *;
    auto.
  destruct (truthy resp); cbn; auto.
  destruct (py_get resp "status"); cbn; auto.
Qed.

(** ** Client.request: a remote error *)

(** C2, as stated, fails: the service answers [{"error": "Unknown device"}]
    and [request] returns [None] to its caller; it does not raise the
    remote error. *)
Lemma request_remote_error_not_raised :
  _session (Samples.fresh Samples.refusing) []
    (mkRequest API_URL "device/turnOn" [("id", VStr "1")] TIMEOUT_seconds)
  = Body (VDict [("error", VStr "Unknown device")]) /\
  fst (Client.request "device/turnOn" [("id", VStr "1")]
         (Samples.fresh Samples.refusing)) = Ret VNone /\
  fst (Client.request "device/turnOn" [("id", VStr "1")]
         (Samples.fresh Samples.refusing))
  <> Raise (OSError (VStr "Unknown device")).
Proof.
  split; [reflexivity|]. split; [reflexivity|].
  vm_compute. discriminate.
Qed.

(** C2, amended: when the decoded body is an object with an ['error'] field,
    [request] raises [IOError] with that payload inside its own [try],
    catches it, writes it to the error log and returns [None]; the caches
    are as they were. *)
Theorem request_remote_error_logged st url params d msg :
  _session st (sent st) (mkRequest API_URL url params TIMEOUT_seconds)
  = Body (VDict d) ->
  dict_get d "error" = Some msg ->
  Client.request url params st =
  (Ret VNone,
   note (LogError (OSError msg))
     (note (LogDebugResponse (VDict d))
        (sending (mkRequest API_URL url params TIMEOUT_seconds) st))).
Proof.
  intros Hbody Herr. rewrite request_eq. cbn zeta. rewrite Hbody.
  cbn [py_contains py_getitem]. rewrite Herr. reflexivity.
Qed.

Lemma request_remote_error_logged_witness :
  Client.request "device/turnOn" [("id", VStr "1")]
    (Samples.fresh Samples.refusing)
  = (Ret VNone,
     note (LogError (OSError (VStr "Unknown device")))
       (note (LogDebugResponse (VDict [("error", VStr "Unknown device")]))
          (sending (mkRequest API_URL "device/turnOn" [("id", VStr "1")]
                      TIMEOUT_seconds)
             (Samples.fresh Samples.refusing)))).
Proof.
  apply (request_remote_error_logged (Samples.fresh Samples.refusing)
           "device/turnOn" [("id", VStr "1")]
           [("error", VStr "Unknown device")] (VStr "Unknown device"));
    reflexivity.
Defined.

(** ** Client.execute *)


(** What [request] returns once the transport outcome is settled. *)
Lemma request_settled method params st :
  settled (_session st (sent st)
             (mkRequest API_URL method params TIMEOUT_seconds)) ->
  exists st', (Client.request method params st = (Ret VNone, st') \/
               exists d, Client.request method params st = (Ret (VDict d), st')).
Proof.
  intros H. rewrite request_eq. cbn zeta.
  destruct (_session st (sent st) _) as [[]|[]|]; cbn in H;
    try contradiction.
  - cbn [py_contains py_getitem].
    destruct (dict_get d "error"); cbn; eauto.
  - cbn; eauto.
Qed.

(** C3, as stated, fails: when the request times out [execute] returns
    [None], which is not the boolean false; and on a body that is not an
    object it raises. *)
Lemma execute_not_always_boolean :
  fst (Client.execute "device/turnOn" [("id", VStr "1")]
         (Samples.fresh Samples.offline)) = Ret VNone /\
  fst (Client.execute "device/turnOn" [("id", VStr "1")]
         (Samples.fresh Samples.offline)) <> Ret (VBool false) /\
  fst (Client.execute "device/turnOn" [("id", VStr "1")]
         (Samples.fresh (fun _ _ => Body (VList [VInt 1]))))
  = Raise AttributeError.
Proof.
  split; [reflexivity|]. split; [|reflexivity].
  vm_compute. discriminate.
Qed.

(** C3, amended: when no keyword is named [self], [method] or [url], and
    the transport fails with a transport error or the decoded body is an
    object, [execute] does not raise; it returns the boolean true exactly
    when [request] returned an object whose ['status'] is ['success'], and
    a falsy value otherwise: what [request] returned when that is absent or
    empty, the boolean false in the remaining cases. *)
Theorem execute_true_iff_success st method params :
  colliding params = false ->
  settled (_session st (sent st)
             (mkRequest API_URL method params TIMEOUT_seconds)) ->
  exists response v st',
    Client.request method params st = (Ret response, st') /\
    Client.execute method params st = (Ret v, st') /\
    (v = VBool true <->
     exists d, response = VDict d /\
               dict_get d "status" = Some (VStr "success")) /\
    (v <> VBool true -> truthy v = false) /\
    (truthy response = false -> v = response) /\
    (truthy response = true -> v <> VBool true -> v = VBool false).
Proof.
  intros Hc H.
  destruct (request_settled method params st H) as [st' [Hr|[d Hr]]].
  - exists VNone, VNone, st'. rewrite execute_eq, Hc, Hr. cbn.
    repeat split; try discriminate; trivial.
    intros [d [Hd _]]. discriminate.
  - rewrite execute_eq, Hc, Hr. destruct d as [|[k x] d'].
    + exists (VDict []), (VDict []), st'. cbn.
      repeat split; try discriminate; trivial.
      intros [d [Hd Hs]]. injection Hd as <-. discriminate.
    + cbn [truthy py_get].
      destruct (dict_get ((k, x) :: d') "status") as [s|] eqn:Es.
      * exists (VDict ((k, x) :: d')), (VBool (py_eq s (VStr "success"))), st'.
        repeat split; trivial.
        -- intros Hv. injection Hv as Hv. apply py_eq_str in Hv. subst s.
           eauto.
        -- intros [d [Hd Hs]]. injection Hd as <-. rewrite Es in Hs.
           injection Hs as ->. reflexivity.
        -- destruct (py_eq s (VStr "success")); [congruence|reflexivity].
        -- discriminate.
        -- destruct (py_eq s (VStr "success")); [congruence|reflexivity].
      * exists (VDict ((k, x) :: d')), (VBool false), st'.
        repeat split; trivial; try discriminate.
        intros [d [Hd Hs]]. injection Hd as <-. congruence.
Qed.

Lemma execute_true_iff_success_witness :
  exists response v st',
    Client.request "device/turnOn" [("id", VStr "1")]
      (Samples.fresh Samples.online) = (Ret response, st') /\
    Client.execute "device/turnOn" [("id", VStr "1")]
      (Samples.fresh Samples.online) = (Ret v, st') /\
    (v = VBool true <->
     exists d, response = VDict d /\
               dict_get d "status" = Some (VStr "success")) /\
    (v <> VBool true -> truthy v = false) /\
    (truthy response = false -> v = response) /\
    (truthy response = true -> v <> VBool true -> v = VBool false).
Proof.
  apply (execute_true_iff_success (Samples.fresh Samples.online)
           "device/turnOn" [("id", VStr "1")]).
  - reflexivity.
  - exact I.
Defined.

(** ** Client.update *)

Lemma request_list_frame url params field st :
  let c := (res <- Client.request url params ;;
            if truthy res then lift (py_get res field) else ret (VList [])) in
  _devices (snd (c st)) = _devices st /\ _sensors (snd (c st)) = _sensors st.
Proof.
  cbn zeta. unfold bind.
  pose proof (request_frame url params st) as H. cbn zeta in H.
  destruct (Client.request url params st) as [[res|e] st1]; cbn in *.
  - destruct (truthy res); cbn; tauto.
  - tauto.
Qed.

Lemma update_sensors_devices st :
  _devices (snd (Client.update_sensors st)) = _devices st.
Proof.
  unfold Client.update_sensors. unfold bind at 1.
  pose proof (request_list_frame "sensors/list" Client.sensors_params
                "sensor" st) as [H _].
  fold Client.request_sensors in H.
  destruct (Client.request_sensors st) as [[listed|e] st1]; cbn in *; trivial.
  unfold_monad. destruct (Client.dict_by_id listed); cbn; trivial.
Qed.

(** C1, as stated, fails: with the lamp cached, [devices/list] times out
    and [sensors/list] succeeds; after [update] the lamp is gone. *)
Lemma update_drops_cache_on_failed_list :
  cache_get (_devices (Samples.cached Samples.devices_down)) (VStr "1")
  = Some Samples.lamp /\
  fst (Client.request "devices/list" Client.devices_params
         (Samples.cached Samples.devices_down)) = Ret VNone /\
  fst (Client.update (Samples.cached Samples.devices_down)) = Ret tt /\
  _sensors (snd (Client.update (Samples.cached Samples.devices_down)))
  = [(VStr "7", Samples.outdoor)] /\
  cache_get (_devices (snd (Client.update
                              (Samples.cached Samples.devices_down))))
    (VStr "1") = None.
Proof. repeat split; reflexivity. Qed.

(** C1, amended: a list request that yields an absent result empties its
    mapping.  When [devices/list] is absent the device mapping is empty after
    [update], whatever [sensors/list] brings; when the device mapping was
    rebuilt and [sensors/list] is absent, [update] ends normally with an
    empty sensor mapping and the rebuilt device mapping. *)
Theorem update_failed_list_empties st :
  (forall st1,
      Client.request "devices/list" Client.devices_params st
      = (Ret VNone, st1) ->
      _devices (snd (Client.update st)) = []) /\
  (forall st1 st2,
      Client.update_devices st = (Ret tt, st1) ->
      Client.request "sensors/list" Client.sensors_params st1
      = (Ret VNone, st2) ->
      fst (Client.update st) = Ret tt /\
      _sensors (snd (Client.update st)) = [] /\
      _devices (snd (Client.update st)) = _devices st1).
Proof.
  split.
  - intros st1 H.
    unfold Client.update, Client.update_devices, Client.request_devices.
    unfold bind at 1 2 3. rewrite H. cbn.
    apply update_sensors_devices.
  - intros st1 st2 Hd Hs.
    assert (E : Client.update st =
                (Ret tt, mkState (_session st2) (sent st2) (logged st2)
                                 (_devices st2) [])).
    { unfold Client.update. unfold bind at 1. rewrite Hd.
      unfold Client.update_sensors, Client.request_sensors.
      unfold bind at 1 2 3. rewrite Hs. reflexivity. }
    rewrite E. cbn.
    pose proof (request_frame "sensors/list" Client.sensors_params st1) as F.
    rewrite Hs in F. cbn in F. tauto.
Qed.

Lemma update_failed_list_empties_witness :
  _devices (snd (Client.update (Samples.cached Samples.devices_down))) = [] /\
  (fst (Client.update (Samples.cached Samples.sensors_down)) = Ret tt /\
   _sensors (snd (Client.update (Samples.cached Samples.sensors_down))) = [] /\
   _devices (snd (Client.update (Samples.cached Samples.sensors_down)))
   = [(VStr "1", Samples.lamp); (VStr "2", Samples.switch)]).
Proof.
  split.
  - apply (proj1 (update_failed_list_empties
                    (Samples.cached Samples.devices_down))
             (snd (Client.request "devices/list" Client.devices_params
                     (Samples.cached Samples.devices_down)))).
    reflexivity.
  - apply (proj2 (update_failed_list_empties
                    (Samples.cached Samples.sensors_down))
             (snd (Client.update_devices
                     (Samples.cached Samples.sensors_down)))
             (snd (Client.request "sensors/list" Client.sensors_params
                     (snd (Client.update_devices
                             (Samples.cached Samples.sensors_down))))));
      reflexivity.
Defined.

(** ** Device commands *)

Lemma cache_getitem_hashable c k v :
  cache_getitem c k = Ret v -> hashable k = true.
Proof. unfold cache_getitem. destruct (hashable k); [trivial|discriminate]. Qed.

Lemma cache_getitem_set_same c k v :
  hashable k = true -> cache_getitem (cache_set c k v) k = Ret v.
Proof.
  intros Hk. unfold cache_getitem. now rewrite Hk, cache_get_set_same.
Qed.

Lemma set_state_eq self command st fields :
  cache_getitem (_devices st) (Device._device_id self) = Ret (VDict fields) ->
  Device.set_state self command st =
  (Ret tt,
   mkState (_session st) (sent st) (logged st)
     (cache_set (_devices st) (Device._device_id self)
        (VDict (dict_set fields "state" (VInt command))))
     (_sensors st)).
Proof.
  intros H. unfold Device.set_state, Device._device, Client.device.
  unfold_monad. rewrite H. reflexivity.
Qed.

Lemma _execute_eq self command m params st :
  table_get API_METHODS command = Some m ->
  Device._execute self command params st =
  match Client.execute m (dict_set params "id" (Device._device_id self)) st with
  | (Ret ok, st1) =>
      if truthy ok then
        match Device.set_state self command st1 with
        | (Ret _, st2) => (Ret (VBool true), st2)
        | (Raise e, st2) => (Raise e, st2)
        end
      else (Ret VNone, st1)
  | (Raise e, st1) => (Raise e, st1)
  end.
Proof.
  intros Hm. unfold Device._execute. rewrite Hm. unfold bind at 1, lift at 1.
  unfold bind at 1.
  destruct (Client.execute m _ st) as [[ok|e] st1]; trivial.
  destruct (truthy ok); reflexivity.
Qed.

(** Reading a field of the record cached for a view. *)
Lemma read_field self st fields k :
  cache_getitem (_devices st) (Device._device_id self) = Ret (VDict fields) ->
  (d <- Device._device self ;; lift (py_getitem d k)) st
  = (py_getitem (VDict fields) k, st).
Proof.
  intros H. unfold Device._device, Client.device. unfold_monad.
  now rewrite H.
Qed.

(** A command the service confirms writes its code into ['state'] of the
    cached record and nothing else; a command it does not confirm writes
    nothing. *)
Lemma _execute_effect self command m params st fields ok st1 :
  table_get API_METHODS command = Some m ->
  cache_getitem (_devices st) (Device._device_id self) = Ret (VDict fields) ->
  Client.execute m (dict_set params "id" (Device._device_id self)) st
  = (Ret ok, st1) ->
  (truthy ok = true ->
   exists st',
     Device._execute self command params st = (Ret (VBool true), st') /\
     _devices st' =
       cache_set (_devices st) (Device._device_id self)
         (VDict (dict_set fields "state" (VInt command))) /\
     _sensors st' = _sensors st /\
     Client.device (Device._device_id self) st' =
       (Ret (VDict (dict_set fields "state" (VInt command))), st') /\
     Device.state self st' = (Ret (VInt command), st') /\
     fst (Device.statevalue self st') = fst (Device.statevalue self st)) /\
  (truthy ok = false ->
   Device._execute self command params st = (Ret VNone, st1) /\
   _devices st1 = _devices st /\ _sensors st1 = _sensors st /\
   Client.device (Device._device_id self) st1 = (Ret (VDict fields), st1)).
Proof.
  intros Hm Hc He.
  pose proof (execute_frame m (dict_set params "id" (Device._device_id self))
                st) as F.
  rewrite He in F. cbn in F. destruct F as (Fd & Fs & _).
  rewrite (_execute_eq _ _ _ _ _ Hm), He.
  split; intros Ht; rewrite Ht.
  - assert (Hc1 : cache_getitem (_devices st1) (Device._device_id self)
                  = Ret (VDict fields)) by now rewrite Fd.
    rewrite (set_state_eq _ _ _ _ Hc1).
    pose proof (cache_getitem_hashable _ _ _ Hc) as Hk.
    set (st' := mkState _ _ _ _ _).
    assert (Hnew : cache_getitem (_devices st') (Device._device_id self)
                   = Ret (VDict (dict_set fields "state" (VInt command))))
      by now apply cache_getitem_set_same.
    exists st'. split; [reflexivity|].
    repeat split.
    + subst st'. cbn [_devices]. now rewrite Fd.
    + exact Fs.
    + unfold Client.device. now rewrite Hnew.
    + unfold Device.state. rewrite (read_field _ _ _ _ Hnew).
      cbn [py_getitem]. now rewrite dict_get_set_same.
    + unfold Device.statevalue.
      rewrite (read_field _ _ _ _ Hnew), (read_field _ _ _ _ Hc).
      cbn [fst py_getitem]. rewrite dict_get_set_other; [trivial|discriminate].
  - repeat split; trivial.
    unfold Client.device. now rewrite Fd, Hc.
Qed.

(** C4: with the device cached, a confirmed [turn_on] returns true, leaves
    ['state'] at [TURNON] and ['statevalue'] as it was; an unconfirmed
    [turn_on] returns [None] and leaves the cached record as it was. *)
Theorem turn_on_effect self st fields ok st1 :
  cache_getitem (_devices st) (Device._device_id self) = Ret (VDict fields) ->
  Client.execute "device/turnOn" [("id", Device._device_id self)] st
  = (Ret ok, st1) ->
  (truthy ok = true ->
   exists st',
     Device.turn_on self st = (Ret (VBool true), st') /\
     Device.state self st' = (Ret (VInt TURNON), st') /\
     fst (Device.statevalue self st') = fst (Device.statevalue self st) /\
     Client.device (Device._device_id self) st' =
       (Ret (VDict (dict_set fields "state" (VInt TURNON))), st') /\
     dict_get (dict_set fields "state" (VInt TURNON)) "statevalue"
     = dict_get fields "statevalue") /\
  (truthy ok = false ->
   exists v,
     Device.turn_on self st = (Ret v, st1) /\ truthy v = false /\
     _devices st1 = _devices st /\
     Client.device (Device._device_id self) st1 = (Ret (VDict fields), st1)).
Proof.
  intros Hc He.
  destruct (_execute_effect self TURNON "device/turnOn" [] st fields ok st1
              eq_refl Hc He) as [Hyes Hno].
  split; intros Ht.
  - destruct (Hyes Ht) as (st' & H1 & _ & _ & H4 & H5 & H6).
    exists st'. repeat split; trivial.
    rewrite dict_get_set_other; [trivial|discriminate].
  - destruct (Hno Ht) as (H1 & H2 & _ & H4).
    exists VNone. repeat split; trivial.
Qed.

Lemma turn_on_effect_witness :
  (exists st',
     Device.turn_on (Device.mk (VStr "1")) (Samples.cached Samples.online)
     = (Ret (VBool true), st') /\
     Device.state (Device.mk (VStr "1")) st' = (Ret (VInt TURNON), st') /\
     fst (Device.statevalue (Device.mk (VStr "1")) st') = Ret (VStr "42")) /\
  (exists v st1,
     Device.turn_on (Device.mk (VStr "1")) (Samples.cached Samples.offline)
     = (Ret v, st1) /\ truthy v = false /\
     Client.device (VStr "1") st1 = (Ret Samples.lamp, st1)).
Proof.
  split.
  - destruct (proj1 (turn_on_effect (Device.mk (VStr "1"))
                       (Samples.cached Samples.online) _ _ _
                       eq_refl eq_refl) eq_refl)
      as (st' & H1 & H2 & H3 & _).
    exists st'. repeat split; trivial.
  - destruct (proj2 (turn_on_effect (Device.mk (VStr "1"))
                       (Samples.cached Samples.offline) _ _ _
                       eq_refl eq_refl) eq_refl)
      as (v & H1 & H2 & _ & H4).
    eexists. eexists. repeat split; eassumption.
Defined.

(** A command that returned true was confirmed by the service. *)
Lemma _execute_true_inv self command m params st st' :
  table_get API_METHODS command = Some m ->
  Device._execute self command params st = (Ret (VBool true), st') ->
  exists ok st1,
    Client.execute m (dict_set params "id" (Device._device_id self)) st
    = (Ret ok, st1) /\ truthy ok = true.
Proof.
  intros Hm H. rewrite (_execute_eq _ _ _ _ _ Hm) in H.
  destruct (Client.execute m _ st) as [[ok|e] st1]; [|discriminate].
  destruct (truthy ok) eqn:Ht; [|discriminate].
  now exists ok, st1.
Qed.

(** C5: with the device cached, a [dim] that returned true has written
    [DIM] into ['state'] of the cached record and changed no other field of
    it: ['statevalue'] reads as before the command, whatever the level. *)
Theorem dim_keeps_statevalue self level st fields st' :
  cache_getitem (_devices st) (Device._device_id self) = Ret (VDict fields) ->
  Device.dim self level st = (Ret (VBool true), st') ->
  Client.device (Device._device_id self) st' =
    (Ret (VDict (dict_set fields "state" (VInt DIM))), st') /\
  Device.state self st' = (Ret (VInt DIM), st') /\
  (forall k, k <> "state" ->
             dict_get (dict_set fields "state" (VInt DIM)) k
             = dict_get fields k) /\
  fst (Device.statevalue self st') = fst (Device.statevalue self st) /\
  _devices st' =
    cache_set (_devices st) (Device._device_id self)
      (VDict (dict_set fields "state" (VInt DIM))) /\
  _sensors st' = _sensors st.
Proof.
  intros Hc Hdim. unfold Device.dim in Hdim.
  destruct (_execute_true_inv self DIM "device/dim" _ _ _ eq_refl Hdim)
    as (ok & st1 & He & Ht).
  destruct (_execute_effect self DIM "device/dim" [("level", level)] st
              fields ok st1 eq_refl Hc He) as [Hyes _].
  destruct (Hyes Ht) as (st2 & H1 & H2 & H3 & H4 & H5 & H6).
  rewrite Hdim in H1. injection H1 as <-.
  repeat split; trivial.
  intros k Hk. now apply dict_get_set_other.
Qed.

Lemma dim_keeps_statevalue_witness :
  fst (Device.dim (Device.mk (VStr "1")) (VInt 80)
         (Samples.cached Samples.online)) = Ret (VBool true) /\
  fst (Device.statevalue (Device.mk (VStr "1"))
         (snd (Device.dim (Device.mk (VStr "1")) (VInt 80)
                 (Samples.cached Samples.online))))
  = fst (Device.statevalue (Device.mk (VStr "1"))
           (Samples.cached Samples.online)).
Proof.
  split; [reflexivity|].
  apply (dim_keeps_statevalue (Device.mk (VStr "1")) (VInt 80)
           (Samples.cached Samples.online) _ _ eq_refl eq_refl).
Defined.

(** ** Device.is_on *)

(** C6: with the device cached and a method code of the registry in
    ['state'], [is_on] is true exactly for [TURNON] and [DIM]. *)
Theorem is_on_iff_turnon_or_dim self st fields code :
  cache_getitem (_devices st) (Device._device_id self) = Ret (VDict fields) ->
  dict_get fields "state" = Some (VInt code) ->
  In code (map fst STR_METHODS) ->
  exists b,
    Device.is_on self st = (Ret (VBool b), st) /\
    (b = true <-> code = TURNON \/ code = DIM).
Proof.
  intros Hc Hs Hin. unfold Device.is_on, Device.state.
  unfold bind at 1. rewrite (read_field _ _ _ _ Hc).
  cbn [py_getitem]. rewrite Hs. cbn [py_eq].
  destruct (code =? TURNON) eqn:E1.
  - exists true. split; [reflexivity|]. apply Z.eqb_eq in E1. tauto.
  - unfold bind at 1. rewrite (read_field _ _ _ _ Hc).
    cbn [py_getitem]. rewrite Hs. cbn [py_eq].
    exists (code =? DIM). split; [reflexivity|].
    rewrite Z.eqb_eq. apply Z.eqb_neq in E1. tauto.
Qed.

Lemma is_on_iff_turnon_or_dim_witness :
  exists b,
    Device.is_on (Device.mk (VStr "1")) (Samples.cached Samples.online)
    = (Ret (VBool b), Samples.cached Samples.online) /\
    (b = true <-> TURNOFF = TURNON \/ TURNOFF = DIM).
Proof.
  apply (is_on_iff_turnon_or_dim (Device.mk (VStr "1"))
           (Samples.cached Samples.online) _ TURNOFF eq_refl eq_refl).
  simpl. tauto.
Defined.

(** ** Device.dim_level *)

Lemma dim_level_eq self st fields sv :
  cache_getitem (_devices st) (Device._device_id self) = Ret (VDict fields) ->
  dict_get fields "statevalue" = Some sv ->
  Device.dim_level self st =
  match py_int sv with
  | Ret n => (Ret n, st)
  | Raise e => if Device.is_ValueError e then (Ret VNone, st) else (Raise e, st)
  end.
Proof.
  intros Hc Hs. unfold Device.dim_level, Device.statevalue, try_except.
  unfold bind at 1. rewrite (read_field _ _ _ _ Hc).
  cbn [py_getitem]. rewrite Hs. unfold lift.
  destruct (py_int sv) as [n|e]; trivial.
Qed.

(** On a string [dim_level] does not raise: the parsed integer, or [None]. *)
Lemma dim_level_of_string self st fields s :
  cache_getitem (_devices st) (Device._device_id self) = Ret (VDict fields) ->
  dict_get fields "statevalue" = Some (VStr s) ->
  Device.dim_level self st =
  (Ret (match int_of_string s with Some z => VInt z | None => VNone end), st).
Proof.
  intros Hc Hs. rewrite (dim_level_eq _ _ _ _ Hc Hs). cbn [py_int].
  destruct (int_of_string s); reflexivity.
Qed.

(** On [None] it raises: [int(None)] is a [TypeError]. *)
Lemma dim_level_of_null self st fields :
  cache_getitem (_devices st) (Device._device_id self) = Ret (VDict fields) ->
  dict_get fields "statevalue" = Some VNone ->
  Device.dim_level self st = (Raise TypeError, st).
Proof. intros Hc Hs. now rewrite (dim_level_eq _ _ _ _ Hc Hs). Qed.

Example dim_level_42 :
  fst (Device.dim_level (Device.mk (VStr "1")) (Samples.cached Samples.online))
  = Ret (VInt 42).
Proof. reflexivity. Qed.

Example dim_level_unknown :
  fst (Device.dim_level (Device.mk (VStr "9"))
         (mkState Samples.online [] []
            [(VStr "9", VDict [("id", VStr "9"); ("statevalue", VStr "unknown")])]
            []))
  = Ret VNone.
Proof. reflexivity. Qed.

(** C7 fails on the code for a null [statevalue]: [int(None)] raises
    [TypeError], which [except ValueError] lets through. *)
Theorem dim_level_null_raises :
  py_getitem Samples.switch "statevalue" = Ret VNone /\
  Client.device (VStr "2") (Samples.cached Samples.online)
  = (Ret Samples.switch, Samples.cached Samples.online) /\
  Device.dim_level (Device.mk (VStr "2")) (Samples.cached Samples.online)
  = (Raise TypeError, Samples.cached Samples.online).
Proof. repeat split; reflexivity. Qed.

(** ** DataItem.value *)

Lemma first_value_find items name scale :
  Forall (fun i => is_measurement i = true) items ->
  DataItem.first_value items name scale =
  match find (entry_matches name scale) items with
  | Some item => py_getitem item "value"
  | None => Ret VNone
  end.
Proof.
  induction 1 as [|item rest Hm _ IH]; [reflexivity|].
  cbn [DataItem.first_value find]. unfold entry_matches.
  destruct item as [| | | | |f]; try discriminate.
  cbn [is_measurement] in Hm. cbn [py_getitem rbind].
  destruct (dict_get f "name") as [n|]; [|discriminate].
  destruct (dict_get f "scale") as [s|]; [|discriminate].
  cbn [rbind].
  destruct (py_eq n name); cbn [andb rbind]; [|exact IH].
  destruct (py_eq s scale); [reflexivity|exact IH].
Qed.

Lemma find_measurement items p item :
  Forall (fun i => is_measurement i = true) items ->
  find p items = Some item ->
  exists v, py_getitem item "value" = Ret v.
Proof.
  intros Hall Hf. apply find_some in Hf as [Hin _].
  rewrite Forall_forall in Hall. specialize (Hall _ Hin).
  destruct item as [| | | | |f]; try discriminate.
  cbn in *. destruct (dict_get f "name"); [|discriminate].
  destruct (dict_get f "scale"); [|discriminate].
  destruct (dict_get f "value") as [x|]; [eauto|discriminate].
Qed.

(** C8: with the sensor cached and its ['data'] a sequence of measurements,
    [value] is the ['value'] of the first entry matching the item's name and
    scale, and [None] when no entry matches; it does not raise. *)
Theorem value_is_first_match self st fields items :
  cache_getitem (_sensors st) (fst (fst (DataItem._item_id self)))
  = Ret (VDict fields) ->
  dict_get fields "data" = Some (VList items) ->
  Forall (fun i => is_measurement i = true) items ->
  let name := snd (fst (DataItem._item_id self)) in
  let scale := snd (DataItem._item_id self) in
  (forall item,
      find (entry_matches name scale) items = Some item ->
      exists v, py_getitem item "value" = Ret v /\
                DataItem.value self st = (Ret v, st)) /\
  (find (entry_matches name scale) items = None ->
   DataItem.value self st = (Ret VNone, st)).
Proof.
  intros Hc Hd Hall name scale.
  assert (E : DataItem.value self st =
              (DataItem.first_value items name scale, st)).
  { unfold DataItem.value, DataItem.sensor, DataItem.sensor_id, DataItem.name,
      DataItem.scale, Sensor.data, Sensor._sensor, Client.sensor.
    unfold_monad. cbn [Sensor._sensor_id]. rewrite Hc.
    cbn [py_getitem]. rewrite Hd. reflexivity. }
  rewrite E, (first_value_find _ _ _ Hall). split.
  - intros item Hf. rewrite Hf.
    destruct (find_measurement _ _ _ Hall Hf) as [v Hv].
    exists v. now rewrite Hv.
  - intros Hf. now rewrite Hf.
Qed.

Lemma value_is_first_match_witness :
  DataItem.value (DataItem.mk (VStr "7", VStr "temp", VStr "0"))
    (Samples.cached Samples.online)
  = (Ret (VStr "21.5"), Samples.cached Samples.online) /\
  DataItem.value (DataItem.mk (VStr "7", VStr "temp", VStr "1"))
    (Samples.cached Samples.online)
  = (Ret VNone, Samples.cached Samples.online).
Proof.
  split.
  - edestruct (value_is_first_match
                 (DataItem.mk (VStr "7", VStr "temp", VStr "0"))
                 (Samples.cached Samples.online)) as [H _];
      [reflexivity|reflexivity|repeat constructor|].
    destruct (H _ eq_refl) as (v & Hv & Hval).
    injection Hv as <-. exact Hval.
  - edestruct (value_is_first_match
                 (DataItem.mk (VStr "7", VStr "temp", VStr "1"))
                 (Samples.cached Samples.online)) as [_ H];
      [reflexivity|reflexivity|repeat constructor|].
    apply H. reflexivity.
Defined.

(** ** Identity accessors *)

Lemma stale_read self st k :
  hashable (Device._device_id self) = true ->
  cache_get (_devices st) (Device._device_id self) = None ->
  (d <- Device._device self ;; lift (py_getitem d k)) st
  = (Raise (KeyError (Device._device_id self)), st).
Proof.
  intros Hh Hn. unfold Device._device, Client.device, cache_getitem.
  unfold_monad. now rewrite Hh, Hn.
Qed.

(** C10: [device_id], [sensor_id], [name] and [scale] of a data item return
    what the handle holds, in every client state; the cache is not read, so
    they succeed on a stale handle too, where the reads of the device record
    fail with [KeyError]. *)
Theorem identity_accessors_total st (d : Device.t) (i : DataItem.t) :
  Device.device_id d st = (Ret (Device._device_id d), st) /\
  DataItem.sensor_id i st = (Ret (fst (fst (DataItem._item_id i))), st) /\
  DataItem.name i st = (Ret (snd (fst (DataItem._item_id i))), st) /\
  DataItem.scale i st = (Ret (snd (DataItem._item_id i)), st) /\
  (hashable (Device._device_id d) = true ->
   cache_get (_devices st) (Device._device_id d) = None ->
   Device.name d st = (Raise (KeyError (Device._device_id d)), st) /\
   Device.state d st = (Raise (KeyError (Device._device_id d)), st) /\
   Device.statevalue d st = (Raise (KeyError (Device._device_id d)), st) /\
   Device.methods d st = (Raise (KeyError (Device._device_id d)), st)).
Proof.
  repeat split; try reflexivity; now apply stale_read.
Qed.

Lemma identity_accessors_total_witness :
  Device.device_id (Device.mk (VStr "1")) (Samples.fresh Samples.online)
  = (Ret (VStr "1"), Samples.fresh Samples.online) /\
  Device.name (Device.mk (VStr "1")) (Samples.fresh Samples.online)
  = (Raise (KeyError (VStr "1")), Samples.fresh Samples.online).
Proof.
  destruct (identity_accessors_total (Samples.fresh Samples.online)
              (Device.mk (VStr "1"))
              (DataItem.mk (VStr "7", VStr "temp", VStr "0")))
    as (H1 & _ & _ & _ & H5).
  split; [exact H1|].
  destruct (H5 eq_refl eq_refl) as [Hn _]. exact Hn.
Defined.

(** ** A refreshed device cache *)

Lemma cache_set_in c k x k' r :
  hashable k = true ->
  In (k', r) (cache_set c k x) ->
  In (k', r) c \/ (r = x /\ py_eq k' k = true).
Proof.
  intros Hk. induction c as [|[k1 v1] c IH]; cbn.
  - intros [H|[]]. injection H as <- <-. right. split; trivial.
    now apply py_eq_refl.
  - destruct (py_eq k1 k) eqn:E; cbn.
    + intros [H|H]; [|tauto]. injection H as <- <-. tauto.
    + intros [H|H]; [tauto|]. destruct (IH H); tauto.
Qed.

Lemma cache_set_keys (P : value -> Prop) c k x :
  Forall P (map fst c) -> P k -> Forall P (map fst (cache_set c k x)).
Proof.
  intros Hc Hk. induction c as [|[k1 v1] c IH]; cbn.
  - now constructor.
  - inversion Hc; subst. destruct (py_eq k1 k); cbn; constructor; auto.
Qed.

Lemma cache_set_distinct c k x :
  distinct_keys (map fst c) -> distinct_keys (map fst (cache_set c k x)).
Proof.
  induction c as [|[k1 v1] c IH]; cbn.
  - auto.
  - intros [H1 H2]. destruct (py_eq k1 k) eqn:E; cbn.
    + auto.
    + split; [|auto]. now apply cache_set_keys.
Qed.

Lemma cache_set_keeps c k x k2 :
  cache_get c k2 <> None -> cache_get (cache_set c k x) k2 <> None.
Proof.
  induction c as [|[k1 v1] c IH]; cbn; [congruence|].
  destruct (py_eq k1 k) eqn:E; cbn; destruct (py_eq k1 k2); auto; discriminate.
Qed.

Lemma cache_get_in c k r :
  cache_get c k = Some r -> exists k', In (k', r) c /\ py_eq k' k = true.
Proof.
  induction c as [|[k1 v1] c IH]; cbn; [discriminate|].
  destruct (py_eq k1 k) eqn:E.
  - intros H. injection H as ->. eauto.
  - intros H. destruct (IH H) as (k' & Hin & He). eauto.
Qed.

Lemma cache_get_key c k' k :
  In k' (map fst c) -> py_eq k' k = true -> cache_get c k <> None.
Proof.
  induction c as [|[k1 v1] c IH]; cbn; [tauto|].
  intros [->|Hin] He.
  - rewrite He. discriminate.
  - destruct (py_eq k1 k); [discriminate|auto].
Qed.

Lemma by_id_spec recs items : forall acc,
  Forall (fun r => is_record r = true) items ->
  (forall r, In r items -> In r recs) ->
  Forall (filed recs) acc ->
  distinct_keys (map fst acc) ->
  exists c,
    Client.by_id acc items = Ret c /\
    Forall (filed recs) c /\
    distinct_keys (map fst c) /\
    (forall k, cache_get acc k <> None -> cache_get c k <> None) /\
    (forall r, In r items ->
               exists k0, py_getitem r "id" = Ret k0 /\
                          cache_get c k0 <> None).
Proof.
  induction items as [|x rest IH]; intros acc Hrec Hsub Hacc Hd.
  - exists acc. cbn. repeat split; trivial. intros r [].
  - inversion Hrec as [|? ? Hx Hrest]; subst.
    destruct x as [| | | | |f]; try discriminate. cbn in Hx.
    destruct (dict_get f "id") as [k|] eqn:Eid; [|discriminate].
    cbn [Client.by_id py_getitem rbind]. rewrite Eid. cbn [rbind]. rewrite Hx.
    destruct (IH (cache_set acc k (VDict f))) as (c & Hc & Hf & Hdc & Hk & Hi).
    + exact Hrest.
    + intros r Hr. apply Hsub. now right.
    + rewrite Forall_forall. intros [k' r] Hin.
      destruct (cache_set_in _ _ _ _ _ Hx Hin) as [Hold|[-> He]].
      * rewrite Forall_forall in Hacc. now apply Hacc.
      * assert (Hk' : hashable k' = true)
          by exact (py_eq_hashable_l _ _ Hx He).
        repeat split; cbn [fst snd]; trivial.
        -- apply Hsub. now left.
        -- exists k. cbn [py_getitem]. now rewrite Eid.
    + now apply cache_set_distinct.
    + exists c. repeat split; trivial.
      * intros k2 H2. apply Hk. now apply cache_set_keeps.
      * intros r [<-|Hr].
        -- exists k. cbn [py_getitem]. rewrite Eid. split; [trivial|].
           apply Hk. now rewrite cache_get_set_same.
        -- now apply Hi.
Qed.

Lemma distinct_keys_NoDup l :
  Forall (fun k => hashable k = true) l -> distinct_keys l -> NoDup l.
Proof.
  induction 1 as [|k l Hk _ IH]; cbn; [constructor|].
  intros [H1 H2]. constructor; [|auto].
  intros Hin. rewrite Forall_forall in H1. specialize (H1 _ Hin).
  rewrite py_eq_refl in H1 by exact Hk. discriminate.
Qed.

Lemma update_devices_eq st recs st1 c :
  Client.request_devices st = (Ret (VList recs), st1) ->
  Client.by_id [] recs = Ret c ->
  _devices (snd (Client.update st)) = c.
Proof.
  intros Hr Hc. unfold Client.update, Client.update_devices.
  unfold bind at 1 2. rewrite Hr.
  unfold bind at 1, lift at 1. cbn [Client.dict_by_id py_iter rbind].
  rewrite Hc. cbn [set_devices].
  rewrite update_sensors_devices. reflexivity.
Qed.

Lemma NoDup_views (l : list value) : NoDup l -> NoDup (map Device.mk l).
Proof.
  induction 1 as [|k l Hnin _ IH]; cbn; constructor; [|exact IH].
  intros Hin. apply in_map_iff in Hin as (k' & E & Hin).
  injection E as ->. contradiction.
Qed.

Lemma device_eq k st : Client.device k st = (cache_getitem (_devices st) k, st).
Proof. reflexivity. Qed.

Lemma cache_getitem_ret c k r :
  cache_getitem c k = Ret r <-> hashable k = true /\ cache_get c k = Some r.
Proof.
  unfold cache_getitem. destruct (hashable k); [|split; [|intros []]; discriminate].
  destruct (cache_get c k); split.
  - intros H. injection H as ->. auto.
  - intros [_ H]. injection H as ->. trivial.
  - discriminate.
  - intros [_ H]. discriminate.
Qed.

(** C9: after a refresh whose [devices/list] brought the records [recs],
    [device(id)] returns a record of [recs] filed under its own id; every
    listed id is cached; [devices] yields one view per cached id, no two
    with equal ids; and [device] on an id that is not cached raises
    [KeyError]. *)
Theorem refreshed_devices st recs st1 :
  Client.request_devices st = (Ret (VList recs), st1) ->
  Forall (fun r => is_record r = true) recs ->
  let st' := snd (Client.update st) in
  (forall k r,
      Client.device k st' = (Ret r, st') ->
      In r recs /\
      exists k0, py_getitem r "id" = Ret k0 /\ py_eq k0 k = true) /\
  (forall r,
      In r recs ->
      exists k0 r', py_getitem r "id" = Ret k0 /\
                    Client.device k0 st' = (Ret r', st')) /\
  (exists views,
      Views.devices st' = (Ret views, st') /\
      NoDup views /\
      distinct_keys (map Device._device_id views) /\
      forall k,
        (exists r, Client.device k st' = (Ret r, st')) <->
        (exists v, In v views /\ py_eq (Device._device_id v) k = true)) /\
  (forall k,
      hashable k = true ->
      cache_get (_devices st') k = None ->
      Client.device k st' = (Raise (KeyError k), st')).
Proof.
  intros Hr Hrec st'.
  destruct (by_id_spec recs recs [] Hrec (fun _ H => H) (Forall_nil _) I)
    as (c & Hc & Hf & Hd & _ & Hi).
  assert (Ec : _devices st' = c) by exact (update_devices_eq _ _ _ _ Hr Hc).
  assert (Hkeys : Forall (fun k => hashable k = true) (map fst c)).
  { rewrite Forall_forall in *. intros k Hin.
    apply in_map_iff in Hin as ([k' r] & <- & Hin). now apply Hf. }
  rewrite Forall_forall in Hf.
  repeat split.
  - rewrite device_eq, Ec in H. injection H as H.
    apply cache_getitem_ret in H as [_ H].
    apply cache_get_in in H as (k' & Hin & _). now apply (Hf _ Hin).
  - rewrite device_eq, Ec in H. injection H as H.
    apply cache_getitem_ret in H as [_ H].
    apply cache_get_in in H as (k' & Hin & He).
    destruct (Hf _ Hin) as (Hk' & _ & k0 & Hid & He0). cbn [fst snd] in *.
    exists k0. split; [exact Hid|].
    pose proof (py_eq_hashable _ _ Hk' He0) as Hk0.
    apply (py_eq_trans k0 k' k Hk0); [|exact He].
    rewrite py_eq_sym by exact Hk0. exact He0.
  - intros r Hin. destruct (Hi r Hin) as (k0 & Hid & Hget).
    rewrite Forall_forall in Hrec. specialize (Hrec r Hin).
    destruct r as [| | | | |f]; try discriminate. cbn in Hrec, Hid.
    destruct (dict_get f "id") as [k|] eqn:Eid; [|discriminate].
    injection Hid as <-.
    destruct (cache_get c k) as [r'|] eqn:Eg; [|congruence].
    exists k, r'. split; [cbn; now rewrite Eid|].
    rewrite device_eq, Ec. f_equal. apply cache_getitem_ret. auto.
  - exists (map (fun kv => Device.mk (fst kv)) c).
    split; [unfold Views.devices; now rewrite Ec|].
    split; [|split].
    + rewrite <- (map_map fst Device.mk).
      apply NoDup_views. now apply distinct_keys_NoDup.
    + rewrite map_map. cbn [Device._device_id]. exact Hd.
    + intros k. rewrite device_eq, Ec. split.
      * intros [r H]. injection H as H.
        apply cache_getitem_ret in H as [_ H].
        apply cache_get_in in H as (k' & Hin & He).
        exists (Device.mk k'). split; [|exact He].
        apply in_map_iff. now exists (k', r).
      * intros (v & Hin & He).
        apply in_map_iff in Hin as ([k' r] & <- & Hin).
        cbn [fst Device._device_id] in He.
        assert (Hk' : hashable k' = true) by now apply (Hf _ Hin).
        assert (Hin' : In k' (map fst c)).
        { apply in_map_iff. now exists (k', r). }
        pose proof (cache_get_key c k' k Hin' He) as Hg.
        destruct (cache_get c k) as [r'|] eqn:Eg; [|congruence].
        exists r'. f_equal. apply cache_getitem_ret.
        split; [exact (py_eq_hashable _ _ Hk' He)|trivial].
  - intros k Hk Hn. rewrite device_eq. unfold cache_getitem.
    now rewrite Hk, Hn.
Qed.

Lemma refreshed_devices_witness :
  (forall k r,
      Client.device k (snd (Client.update (Samples.fresh Samples.online)))
      = (Ret r, snd (Client.update (Samples.fresh Samples.online))) ->
      In r [Samples.lamp; Samples.switch] /\
      exists k0, py_getitem r "id" = Ret k0 /\ py_eq k0 k = true) /\
  Client.device (VStr "3") (snd (Client.update (Samples.fresh Samples.online)))
  = (Raise (KeyError (VStr "3")),
     snd (Client.update (Samples.fresh Samples.online))).
Proof.
  destruct (refreshed_devices (Samples.fresh Samples.online)
              [Samples.lamp; Samples.switch] _ eq_refl)
    as (H1 & _ & _ & H4).
  - repeat constructor.
  - split; [exact H1|]. apply H4; reflexivity.
Defined.

(** * Further properties of the client and its views *)

(** ** Client.request and Client.execute *)

Lemma handled_sent e st : sent (snd (handled e st)) = sent st.
Proof. unfold handled. destruct (is_OSError e); reflexivity. Qed.

Lemma joinable_not_refused st url params :
  joinable url = true -> url_refused st url params = false.
Proof.
  intros J. unfold url_refused, answer. cbn [req_url]. rewrite J.
  destruct (_session st (sent st) _); reflexivity.
Qed.

Lemma request_refused url params st :
  url_refused st url params = true ->
  Client.request url params st = (Raise ValueError, st).
Proof.
  unfold url_refused, answer. cbn [req_url]. rewrite request_eq. cbn zeta.
  destruct (_session st (sent st) _); try discriminate.
  destruct (joinable url); [discriminate|reflexivity].
Qed.

Lemma request_sent url params st :
  url_refused st url params = false ->
  sent (snd (Client.request url params st))
  = mkRequest API_URL url params TIMEOUT_seconds :: sent st.
Proof.
  unfold url_refused, answer. cbn [req_url]. rewrite request_eq. cbn zeta.
  destruct (_session st (sent st) _) as [v|e|].
  - intros _. repeat break_match; try rewrite handled_sent; reflexivity.
  - intros _. now rewrite handled_sent.
  - destruct (joinable url); [reflexivity|discriminate].
Qed.

Lemma request_ret_sent url params st v st' :
  Client.request url params st = (Ret v, st') ->
  sent st' = mkRequest API_URL url params TIMEOUT_seconds :: sent st.
Proof.
  intros H. destruct (url_refused st url params) eqn:R.
  - rewrite (request_refused _ _ _ R) in H. discriminate.
  - pose proof (request_sent _ _ _ R) as S. now rewrite H in S.
Qed.

Lemma execute_sent method params st :
  colliding params = false ->
  url_refused st method params = false ->
  sent (snd (Client.execute method params st))
  = mkRequest API_URL method params TIMEOUT_seconds :: sent st.
Proof.
  intros Hc R. rewrite execute_eq, Hc.
  pose proof (request_sent method params st R) as H.
  destruct (Client.request method params st) as [[resp|e] st1]; cbn in *;
    trivial.
  destruct (truthy resp); trivial.
  destruct (py_get resp "status"); trivial.
Qed.


(** A keyword named [self], [method] or [url] stops [execute] with a
    [TypeError] before [request] runs. *)
Lemma execute_colliding method params st :
  colliding params = true ->
  Client.execute method params st = (Raise TypeError, st).
Proof. intros Hc. now rewrite execute_eq, Hc. Qed.

(** X1: when the session raises, an exception of the [OSError] family is
    written to the error log and [request] returns [None]; any other
    exception reaches the caller, with nothing written to the error log. *)
Theorem request_transport_error st url params e :
  _session st (sent st) (mkRequest API_URL url params TIMEOUT_seconds)
  = Raises e ->
  (is_OSError e = true ->
   Client.request url params st =
   (Ret VNone,
    note (LogError e)
      (sending (mkRequest API_URL url params TIMEOUT_seconds) st))) /\
  (is_OSError e = false ->
   Client.request url params st =
   (Raise e, sending (mkRequest API_URL url params TIMEOUT_seconds) st)).
Proof.
  intros H. rewrite request_eq. cbn zeta. rewrite H. unfold handled.
  split; intros ->; reflexivity.
Qed.

Lemma request_transport_error_witness :
  Client.request "user/profile" [] (Samples.fresh Samples.offline) =
  (Ret VNone,
   note (LogError (OSError (VStr "timed out")))
     (sending (mkRequest API_URL "user/profile" [] TIMEOUT_seconds)
        (Samples.fresh Samples.offline))) /\
  Client.request "user/profile" [] (Samples.fresh (fun _ _ => Raises ValueError))
  = (Raise ValueError,
     sending (mkRequest API_URL "user/profile" [] TIMEOUT_seconds)
       (Samples.fresh (fun _ _ => Raises ValueError))).
Proof.
  split.
  - apply (proj1 (request_transport_error (Samples.fresh Samples.offline)
                    "user/profile" [] _ eq_refl)).
    reflexivity.
  - apply (proj2 (request_transport_error
                    (Samples.fresh (fun _ _ => Raises ValueError))
                    "user/profile" [] _ eq_refl)).
    reflexivity.
Defined.



(** X3: a body that decodes to [null], a boolean or a number makes
    ['error' in response] raise [TypeError], which [request] does not
    catch. *)
Theorem request_scalar_body_raises st url params v :
  _session st (sent st) (mkRequest API_URL url params TIMEOUT_seconds)
  = Body v ->
  v = VNone \/ (exists b, v = VBool b) \/ (exists z, v = VInt z) ->
  fst (Client.request url params st) = Raise TypeError /\
  logged (snd (Client.request url params st))
  = LogDebugResponse v
      :: LogDebugRequest (mkRequest API_URL url params TIMEOUT_seconds)
      :: logged st.
Proof.
  intros H Hv. rewrite request_eq. cbn zeta. rewrite H.
  destruct Hv as [->|[[b ->]|[z ->]]]; split; reflexivity.
Qed.

Lemma request_scalar_body_raises_witness :
  fst (Client.request "user/profile" []
         (Samples.fresh (fun _ _ => Body VNone))) = Raise TypeError.
Proof.
  apply (request_scalar_body_raises (Samples.fresh (fun _ _ => Body VNone))
           "user/profile" [] VNone eq_refl).
  now left.
Defined.

(** X4: a body that is an object without an ['error'] field is returned to
    the caller as it was decoded, and nothing goes to the error log. *)
Theorem request_returns_body st url params d :
  _session st (sent st) (mkRequest API_URL url params TIMEOUT_seconds)
  = Body (VDict d) ->
  dict_get d "error" = None ->
  Client.request url params st =
  (Ret (VDict d),
   note (LogDebugResponse (VDict d))
     (sending (mkRequest API_URL url params TIMEOUT_seconds) st)).
Proof.
  intros H He. rewrite request_eq. cbn zeta. rewrite H.
  cbn [py_contains]. now rewrite He.
Qed.

Lemma request_returns_body_witness :
  Client.request "device/turnOn" [("id", VStr "1")]
    (Samples.fresh Samples.online) =
  (Ret (VDict [("status", VStr "success")]),
   note (LogDebugResponse (VDict [("status", VStr "success")]))
     (sending (mkRequest API_URL "device/turnOn" [("id", VStr "1")]
                 TIMEOUT_seconds)
        (Samples.fresh Samples.online))).
Proof.
  apply (request_returns_body (Samples.fresh Samples.online)
           "device/turnOn" [("id", VStr "1")]
           [("status", VStr "success")]);
    reflexivity.
Defined.

(** X5: whatever the service answers, a truthy result of [execute] is the
    boolean true and comes from a response whose ['status'] is
    ['success']. *)
Theorem execute_truthy_is_true st method params v st' :
  Client.execute method params st = (Ret v, st') ->
  truthy v = true ->
  v = VBool true /\
  exists response,
    Client.request method params st = (Ret response, st') /\
    py_get response "status" = Ret (VStr "success").
Proof.
  intros H Ht. rewrite execute_eq in H.
  destruct (colliding params); [discriminate|].
  destruct (Client.request method params st) as [[resp|e] st1];
    [|discriminate].
  destruct (truthy resp) eqn:Er.
  - destruct (py_get resp "status") as [s|e] eqn:Es; [|discriminate].
    injection H as <- <-. cbn in Ht. rewrite Ht.
    apply py_eq_str in Ht. subst s. eauto.
  - injection H as <- <-. congruence.
Qed.

Lemma execute_truthy_is_true_witness :
  exists response,
    Client.request "device/up" [("id", VStr "1")]
      (Samples.fresh Samples.online)
    = (Ret response,
       snd (Client.execute "device/up" [("id", VStr "1")]
              (Samples.fresh Samples.online))) /\
    py_get response "status" = Ret (VStr "success").
Proof.
  destruct (execute_truthy_is_true (Samples.fresh Samples.online)
              "device/up" [("id", VStr "1")] (VBool true)
              (snd (Client.execute "device/up" [("id", VStr "1")]
                      (Samples.fresh Samples.online)))
              eq_refl eq_refl)
    as [_ H].
  exact H.
Defined.

(** ** The command verbs *)




Lemma set_state_sent self command st :
  sent (snd (Device.set_state self command st)) = sent st.
Proof.
  unfold Device.set_state, Device._device, Client.device. unfold_monad.
  destruct (cache_getitem _ _) as [d|e]; cbn; trivial.
  destruct (py_setitem d "state" _); reflexivity.
Qed.

Lemma has_key_set_other params k v k2 :
  k2 <> k -> has_key (dict_set params k v) k2 = has_key params k2.
Proof. intros H. unfold has_key. now rewrite dict_get_set_other. Qed.

Lemma colliding_set_id params v :
  colliding (dict_set params "id" v) = colliding params.
Proof.
  unfold colliding. now rewrite !has_key_set_other by discriminate.
Qed.

(** The endpoints of [API_METHODS] are paths [urljoin] accepts. *)
Lemma endpoint_joinable command endpoint :
  table_get API_METHODS command = Some endpoint -> joinable endpoint = true.
Proof.
  cbn [table_get API_METHODS].
  repeat (destruct (_ =? command);
          [intros H; injection H as <-; reflexivity|]).
  discriminate.
Qed.

(** X7: a command with an endpoint whose keywords do not collide with a
    parameter name ([self], [command], [method], [url]) sends exactly one
    request, to that endpoint, whatever its outcome; the ['id'] parameter
    of the request is the id of the view, also when the caller passed an
    ['id'] of its own, and the other parameters go out as given.  With a
    keyword named [self], [method] or [url] the command raises [TypeError]
    and nothing is sent or changed. *)
Theorem command_request self command endpoint params st :
  table_get API_METHODS command = Some endpoint ->
  (colliding params = false ->
   has_key params "command" = false ->
   exists r,
     sent (snd (Device._execute self command params st)) = r :: sent st /\
     req_url r = endpoint /\ req_base r = API_URL /\ req_timeout r = 5 /\
     dict_get (req_params r) "id" = Some (Device._device_id self) /\
     forall k, k <> "id" -> dict_get (req_params r) k = dict_get params k) /\
  (colliding params = true ->
   Device._execute self command params st = (Raise TypeError, st)).
Proof.
  intros Hm. split.
  - intros Hc _.
    exists (mkRequest API_URL endpoint
              (dict_set params "id" (Device._device_id self)) 5).
    split.
    + rewrite (_execute_eq _ _ _ _ _ Hm).
      assert (H : sent (snd (Client.execute endpoint
                               (dict_set params "id" (Device._device_id self))
                               st))
                  = mkRequest API_URL endpoint
                      (dict_set params "id" (Device._device_id self))
                      TIMEOUT_seconds :: sent st).
      { apply execute_sent.
        - now rewrite colliding_set_id.
        - apply joinable_not_refused. exact (endpoint_joinable _ _ Hm). }
      destruct (Client.execute endpoint _ st) as [[ok|e] st1]; cbn [snd] in *;
        trivial.
      destruct (truthy ok); trivial.
      pose proof (set_state_sent self command st1) as H2.
      destruct (Device.set_state self command st1) as [[[]|e] st2];
        cbn [snd] in *; rewrite H2; exact H.
    + cbn. repeat split; trivial.
      * apply dict_get_set_same.
      * intros k Hk. now apply dict_get_set_other.
  - intros Hc. rewrite (_execute_eq _ _ _ _ _ Hm).
    now rewrite execute_colliding by now rewrite colliding_set_id.
Qed.

Lemma command_request_witness :
  (exists r,
     sent (snd (Device.dim (Device.mk (VStr "1")) (VInt 80)
                  (Samples.cached Samples.online))) = r :: [] /\
     req_url r = "device/dim" /\ req_base r = API_URL /\ req_timeout r = 5 /\
     dict_get (req_params r) "id" = Some (VStr "1") /\
     forall k, k <> "id" ->
               dict_get (req_params r) k = dict_get [("level", VInt 80)] k) /\
  Device._execute (Device.mk (VStr "1")) DIM [("url", VStr "x")]
    (Samples.cached Samples.online)
  = (Raise TypeError, Samples.cached Samples.online).
Proof.
  split.
  - apply (proj1 (command_request (Device.mk (VStr "1")) DIM "device/dim"
                    [("level", VInt 80)] (Samples.cached Samples.online)
                    eq_refl));
      reflexivity.
  - apply (proj2 (command_request (Device.mk (VStr "1")) DIM "device/dim"
                    [("url", VStr "x")] (Samples.cached Samples.online)
                    eq_refl)).
    reflexivity.
Defined.

(** X8: with the device cached, any command that returned true (so also
    [turn_off], [up], [down] and [stop]) has written its own code into
    ['state']; ['name'], ['statevalue'] and ['methods'] read as before and
    the sensor mapping is untouched. *)
Theorem command_sets_state self command endpoint params st fields st' :
  table_get API_METHODS command = Some endpoint ->
  cache_getitem (_devices st) (Device._device_id self) = Ret (VDict fields) ->
  Device._execute self command params st = (Ret (VBool true), st') ->
  Device.state self st' = (Ret (VInt command), st') /\
  fst (Device.name self st') = fst (Device.name self st) /\
  fst (Device.statevalue self st') = fst (Device.statevalue self st) /\
  fst (Device.methods self st') = fst (Device.methods self st) /\
  _devices st' =
    cache_set (_devices st) (Device._device_id self)
      (VDict (dict_set fields "state" (VInt command))) /\
  _sensors st' = _sensors st.
Proof.
  intros Hm Hc Hx.
  destruct (_execute_true_inv _ _ _ _ _ _ Hm Hx) as (ok & st1 & He & Ht).
  destruct (_execute_effect self command endpoint params st fields ok st1
              Hm Hc He) as [Hyes _].
  destruct (Hyes Ht) as (st2 & H1 & H2 & H3 & H4 & H5 & H6).
  rewrite Hx in H1. injection H1 as <-.
  assert (Hnew : cache_getitem (_devices st') (Device._device_id self)
                 = Ret (VDict (dict_set fields "state" (VInt command)))).
  { rewrite device_eq in H4. now injection H4. }
  assert (Hother : forall k, k <> "state" ->
            fst ((d <- Device._device self ;; lift (py_getitem d k)) st')
            = fst ((d <- Device._device self ;; lift (py_getitem d k)) st)).
  { intros k Hk.
    rewrite (read_field _ _ _ _ Hnew), (read_field _ _ _ _ Hc).
    cbn [fst py_getitem]. now rewrite dict_get_set_other. }
  repeat split; trivial; apply Hother; discriminate.
Qed.

Lemma command_sets_state_witness :
  fst (Device.state (Device.mk (VStr "1"))
         (snd (Device.stop (Device.mk (VStr "1"))
                 (Samples.cached Samples.online))))
  = Ret (VInt STOP).
Proof.
  destruct (command_sets_state (Device.mk (VStr "1")) STOP "device/stop" []
              (Samples.cached Samples.online) _
              (snd (Device.stop (Device.mk (VStr "1"))
                      (Samples.cached Samples.online)))
              eq_refl eq_refl eq_refl) as [H _].
  now rewrite H.
Defined.



(** X10: with the device cached, after a command that returned true
    [is_on] is true when the command was [turn_on] or [dim] and false when
    it was [turn_off], [up], [down] or [stop]. *)
Theorem is_on_after_command self command endpoint params st fields st' :
  table_get API_METHODS command = Some endpoint ->
  cache_getitem (_devices st) (Device._device_id self) = Ret (VDict fields) ->
  Device._execute self command params st = (Ret (VBool true), st') ->
  Device.is_on self st'
  = (Ret (VBool ((command =? TURNON) || (command =? DIM))), st').
Proof.
  intros Hm Hc Hx.
  destruct (_execute_true_inv _ _ _ _ _ _ Hm Hx) as (ok & st1 & He & Ht).
  destruct (_execute_effect self command endpoint params st fields ok st1
              Hm Hc He) as [Hyes _].
  destruct (Hyes Ht) as (st2 & H1 & _ & _ & _ & Hstate & _).
  rewrite Hx in H1. injection H1 as <-.
  unfold Device.is_on. unfold bind at 1. rewrite Hstate. cbn [py_eq].
  destruct (command =? TURNON); [reflexivity|].
  unfold bind at 1. rewrite Hstate. reflexivity.
Qed.

Lemma is_on_after_command_witness :
  Device.is_on (Device.mk (VStr "1"))
    (snd (Device.dim (Device.mk (VStr "1")) (VInt 80)
            (Samples.cached Samples.online)))
  = (Ret (VBool true),
     snd (Device.dim (Device.mk (VStr "1")) (VInt 80)
            (Samples.cached Samples.online))) /\
  Device.is_on (Device.mk (VStr "1"))
    (snd (Device.turn_off (Device.mk (VStr "1"))
            (Samples.cached Samples.online)))
  = (Ret (VBool false),
     snd (Device.turn_off (Device.mk (VStr "1"))
            (Samples.cached Samples.online))).
Proof.
  split.
  - apply (is_on_after_command (Device.mk (VStr "1")) DIM "device/dim"
             [("level", VInt 80)] (Samples.cached Samples.online) _ _
             eq_refl eq_refl eq_refl).
  - apply (is_on_after_command (Device.mk (VStr "1")) TURNOFF
             "device/turnOff" [] (Samples.cached Samples.online) _ _
             eq_refl eq_refl eq_refl).
Defined.

(** ** Client.update *)

Lemma py_eq_congr_l a b c :
  hashable a = true -> hashable b = true ->
  py_eq a b = true -> py_eq a c = py_eq b c.
Proof.
  intros Ha Hb Hab. destruct (py_eq b c) eqn:Ebc.
  - exact (py_eq_trans a b c Ha Hab Ebc).
  - destruct (py_eq a c) eqn:Eac; trivial.
    rewrite py_eq_sym in Hab by exact Ha.
    rewrite (py_eq_trans b a c Hb Hab Eac) in Ebc. discriminate.
Qed.

(** Lookup after insertion. *)
Lemma cache_get_set c k0 x k :
  Forall (fun k1 => hashable k1 = true) (map fst c) ->
  hashable k0 = true ->
  cache_get (cache_set c k0 x) k
  = if py_eq k0 k then Some x else cache_get c k.
Proof.
  intros Hc H0. induction c as [|[k1 v1] c IH]; cbn; [reflexivity|].
  inversion Hc as [|? ? H1 Hc']; subst. cbn [fst] in H1.
  destruct (py_eq k1 k0) eqn:E10; cbn.
  - rewrite (py_eq_congr_l k1 k0 k H1 H0 E10).
    destruct (py_eq k0 k); reflexivity.
  - rewrite (IH Hc'). destruct (py_eq k1 k) eqn:E1k; [|reflexivity].
    destruct (py_eq k0 k) eqn:E0k; [|reflexivity].
    pose proof (py_eq_hashable _ _ H1 E1k) as Hk.
    assert (py_eq k k0 = true) by (rewrite py_eq_sym by exact Hk; exact E0k).
    rewrite (py_eq_trans k1 k k0 H1 E1k H) in E10. discriminate.
Qed.

Lemma find_snoc {A} (p : A -> bool) l x :
  find p (l ++ [x]) =
  match find p l with
  | Some y => Some y
  | None => if p x then Some x else None
  end.
Proof.
  induction l as [|y l IH]; cbn; [reflexivity|].
  destruct (p y); [reflexivity|exact IH].
Qed.

Lemma by_id_get items : forall acc,
  Forall (fun r => is_record r = true) items ->
  Forall (fun k => hashable k = true) (map fst acc) ->
  exists c,
    Client.by_id acc items = Ret c /\
    forall k, cache_get c k =
              match last_with_id items k with
              | Some r => Some r
              | None => cache_get acc k
              end.
Proof.
  induction items as [|x rest IH]; intros acc Hrec Hacc.
  - exists acc. split; reflexivity.
  - inversion Hrec as [|? ? Hx Hrest]; subst.
    destruct x as [| | | | |f]; try discriminate. cbn in Hx.
    destruct (dict_get f "id") as [kx|] eqn:Eid; [|discriminate].
    cbn [Client.by_id py_getitem rbind]. rewrite Eid. cbn [rbind]. rewrite Hx.
    destruct (IH (cache_set acc kx (VDict f)) Hrest) as (c & Hc & Hget).
    { now apply cache_set_keys. }
    exists c. split; [exact Hc|]. intros k. rewrite Hget.
    unfold last_with_id. cbn [rev]. rewrite find_snoc.
    destruct (find _ (rev rest)); [reflexivity|].
    cbn [py_getitem]. rewrite Eid, (cache_get_set _ _ _ _ Hacc Hx).
    destruct (py_eq kx k); reflexivity.
Qed.

Lemma request_sensors_frame st :
  _devices (snd (Client.request_sensors st)) = _devices st /\
  _sensors (snd (Client.request_sensors st)) = _sensors st.
Proof.
  exact (request_list_frame "sensors/list" Client.sensors_params "sensor" st).
Qed.

Lemma request_devices_frame st :
  _devices (snd (Client.request_devices st)) = _devices st /\
  _sensors (snd (Client.request_devices st)) = _sensors st.
Proof.
  exact (request_list_frame "devices/list" Client.devices_params "device" st).
Qed.

(** X11: a refresh whose two responses list records with usable ids ends
    normally, and afterwards [device(k)] and [sensor(k)] return, for every
    hashable [k], the last listed record whose id equals [k], and raise
    [KeyError] when none was listed, whatever was cached before. *)
Theorem refresh_last_wins st drecs st1 srecs st2 :
  Client.request_devices st = (Ret (VList drecs), st1) ->
  Forall (fun r => is_record r = true) drecs ->
  Client.request_sensors (snd (Client.update_devices st))
  = (Ret (VList srecs), st2) ->
  Forall (fun r => is_record r = true) srecs ->
  fst (Client.update st) = Ret tt /\
  forall k,
    hashable k = true ->
    Client.device k (snd (Client.update st))
    = (subscript drecs k, snd (Client.update st)) /\
    Client.sensor k (snd (Client.update st))
    = (subscript srecs k, snd (Client.update st)).
Proof.
  intros Hd Hdr Hs Hsr.
  destruct (by_id_get drecs [] Hdr (Forall_nil _)) as (cd & Hcd & Hgd).
  destruct (by_id_get srecs [] Hsr (Forall_nil _)) as (cs & Hcs & Hgs).
  assert (Eu : Client.update_devices st =
               (Ret tt, mkState (_session st1) (sent st1) (logged st1) cd
                                (_sensors st1))).
  { unfold Client.update_devices. unfold bind at 1. rewrite Hd.
    unfold bind at 1, lift at 1. cbn [Client.dict_by_id py_iter rbind].
    now rewrite Hcd. }
  rewrite Eu in Hs. cbn [snd] in Hs.
  pose proof (request_sensors_frame
                (mkState (_session st1) (sent st1) (logged st1) cd
                         (_sensors st1))) as [Fd _].
  rewrite Hs in Fd. cbn [snd _devices] in Fd.
  assert (E : Client.update st =
              (Ret tt, mkState (_session st2) (sent st2) (logged st2)
                               (_devices st2) cs)).
  { unfold Client.update. unfold bind at 1. rewrite Eu.
    unfold Client.update_sensors. unfold bind at 1. rewrite Hs.
    unfold bind at 1, lift at 1. cbn [Client.dict_by_id py_iter rbind].
    now rewrite Hcs. }
  rewrite E. split; [reflexivity|]. intros k Hk. cbn [snd].
  unfold Client.device, Client.sensor, cache_getitem, subscript.
  cbn [_devices _sensors]. rewrite Hk, Fd, Hgd, Hgs. cbn [cache_get].
  split.
  - destruct (last_with_id drecs k); reflexivity.
  - destruct (last_with_id srecs k); reflexivity.
Qed.

Lemma refresh_last_wins_witness :
  fst (Client.update (Samples.cached Samples.online)) = Ret tt /\
  forall k,
    hashable k = true ->
    Client.device k (snd (Client.update (Samples.cached Samples.online)))
    = (subscript [Samples.lamp; Samples.switch] k,
       snd (Client.update (Samples.cached Samples.online))) /\
    Client.sensor k (snd (Client.update (Samples.cached Samples.online)))
    = (subscript [Samples.outdoor] k,
       snd (Client.update (Samples.cached Samples.online))).
Proof.
  apply (refresh_last_wins (Samples.cached Samples.online)
           [Samples.lamp; Samples.switch]
           (snd (Client.request_devices (Samples.cached Samples.online)))
           [Samples.outdoor]
           (snd (Client.request_sensors
                   (snd (Client.update_devices
                           (Samples.cached Samples.online))))));
    try reflexivity; repeat constructor.
Defined.

Lemma update_devices_sensors st :
  _sensors (snd (Client.update_devices st)) = _sensors st.
Proof.
  unfold Client.update_devices. unfold bind at 1.
  pose proof (request_devices_frame st) as [_ H].
  destruct (Client.request_devices st) as [[listed|e] st1]; cbn [snd] in *;
    trivial.
  unfold_monad. destruct (Client.dict_by_id listed); cbn; trivial.
Qed.

Lemma update_devices_raise st e st1 :
  Client.update_devices st = (Raise e, st1) -> _devices st1 = _devices st.
Proof.
  unfold Client.update_devices. unfold bind at 1.
  pose proof (request_devices_frame st) as [H _].
  destruct (Client.request_devices st) as [[listed|e'] st']; cbn [snd] in *.
  - unfold_monad. destruct (Client.dict_by_id listed); [discriminate|].
    intros E. injection E as _ <-. exact H.
  - intros E. injection E as _ <-. exact H.
Qed.

Lemma update_sensors_raise st e st1 :
  Client.update_sensors st = (Raise e, st1) -> _sensors st1 = _sensors st.
Proof.
  unfold Client.update_sensors. unfold bind at 1.
  pose proof (request_sensors_frame st) as [_ H].
  destruct (Client.request_sensors st) as [[listed|e'] st']; cbn [snd] in *.
  - unfold_monad. destruct (Client.dict_by_id listed); [discriminate|].
    intros E. injection E as _ <-. exact H.
  - intros E. injection E as _ <-. exact H.
Qed.

(** X12: a refresh that raises does not roll back.  When building the
    device mapping raises (a listed record without ['id'], an unhashable
    id, a response without the list) both mappings stay as they were and no
    sensor request is made; when building the sensor mapping raises, the
    device mapping is already the new one and the sensor mapping is still
    the old one. *)
Theorem update_raise_partial st e st1 :
  (Client.update_devices st = (Raise e, st1) ->
   Client.update st = (Raise e, st1) /\
   _devices st1 = _devices st /\ _sensors st1 = _sensors st) /\
  (forall st2,
      Client.update_devices st = (Ret tt, st1) ->
      Client.update_sensors st1 = (Raise e, st2) ->
      Client.update st = (Raise e, st2) /\
      _devices st2 = _devices st1 /\ _sensors st2 = _sensors st).
Proof.
  split.
  - intros H. pose proof (update_devices_sensors st) as Hs.
    rewrite H in Hs. cbn [snd] in Hs.
    repeat split; trivial.
    + unfold Client.update. unfold bind at 1. now rewrite H.
    + exact (update_devices_raise _ _ _ H).
  - intros st2 Hd Hs.
    pose proof (update_devices_sensors st) as F1. rewrite Hd in F1.
    pose proof (update_sensors_devices st1) as F2. rewrite Hs in F2.
    cbn [snd] in F1, F2.
    repeat split; trivial.
    + unfold Client.update. unfold bind at 1. now rewrite Hd.
    + rewrite (update_sensors_raise _ _ _ Hs). exact F1.
Qed.

Lemma update_raise_partial_witness :
  (Client.update (Samples.cached nameless_device)
   = (Raise (KeyError (VStr "id")),
      snd (Client.update_devices (Samples.cached nameless_device))) /\
   _devices (snd (Client.update_devices (Samples.cached nameless_device)))
   = _devices (Samples.cached nameless_device) /\
   _sensors (snd (Client.update_devices (Samples.cached nameless_device)))
   = _sensors (Samples.cached nameless_device)) /\
  (Client.update (Samples.cached sensors_busy)
   = (Raise TypeError,
      snd (Client.update_sensors
             (snd (Client.update_devices (Samples.cached sensors_busy))))) /\
   _devices (snd (Client.update_sensors
                    (snd (Client.update_devices
                            (Samples.cached sensors_busy)))))
   = _devices (snd (Client.update_devices (Samples.cached sensors_busy))) /\
   _sensors (snd (Client.update_sensors
                    (snd (Client.update_devices
                            (Samples.cached sensors_busy)))))
   = _sensors (Samples.cached sensors_busy)).
Proof.
  split.
  - exact (proj1 (update_raise_partial
                    (Samples.cached nameless_device)
                    (KeyError (VStr "id"))
                    (snd (Client.update_devices
                            (Samples.cached nameless_device))))
             eq_refl).
  - exact (proj2 (update_raise_partial
                    (Samples.cached sensors_busy)
                    TypeError
                    (snd (Client.update_devices
                            (Samples.cached sensors_busy))))
             (snd (Client.update_sensors
                     (snd (Client.update_devices
                             (Samples.cached sensors_busy)))))
             eq_refl eq_refl).
Defined.

(** ** Sensor and DataItem views *)

Lemma value_eq self st fields items :
  cache_getitem (_sensors st) (fst (fst (DataItem._item_id self)))
  = Ret (VDict fields) ->
  dict_get fields "data" = Some (VList items) ->
  DataItem.value self st =
  (DataItem.first_value items (snd (fst (DataItem._item_id self)))
     (snd (DataItem._item_id self)), st).
Proof.
  intros Hc Hd.
  unfold DataItem.value, DataItem.sensor, DataItem.sensor_id, DataItem.name,
    DataItem.scale, Sensor.data, Sensor._sensor, Client.sensor.
  unfold_monad. cbn [Sensor._sensor_id]. rewrite Hc.
  cbn [py_getitem]. now rewrite Hd.
Qed.

(** X13: [value] is absent only under a cached sensor.  On a data item
    whose sensor is not cached it raises [KeyError] with the sensor id, and
    under a cached sensor record without ['data'] it raises
    [KeyError('data')]. *)
Theorem value_without_sensor self st :
  (hashable (fst (fst (DataItem._item_id self))) = true ->
   cache_get (_sensors st) (fst (fst (DataItem._item_id self))) = None ->
   DataItem.value self st
   = (Raise (KeyError (fst (fst (DataItem._item_id self)))), st)) /\
  (forall fields,
      cache_getitem (_sensors st) (fst (fst (DataItem._item_id self)))
      = Ret (VDict fields) ->
      dict_get fields "data" = None ->
      DataItem.value self st = (Raise (KeyError (VStr "data")), st)).
Proof.
  split.
  - intros Hh Hn.
    unfold DataItem.value, DataItem.sensor, DataItem.sensor_id, Sensor.data,
      Sensor._sensor, Client.sensor, cache_getitem.
    unfold_monad. cbn [Sensor._sensor_id]. now rewrite Hh, Hn.
  - intros fields Hc Hd.
    unfold DataItem.value, DataItem.sensor, DataItem.sensor_id, Sensor.data,
      Sensor._sensor, Client.sensor.
    unfold_monad. cbn [Sensor._sensor_id]. rewrite Hc.
    cbn [py_getitem]. now rewrite Hd.
Qed.

Lemma value_without_sensor_witness :
  DataItem.value (DataItem.mk (VStr "7", VStr "temp", VStr "0"))
    (Samples.fresh Samples.online)
  = (Raise (KeyError (VStr "7")), Samples.fresh Samples.online) /\
  DataItem.value (DataItem.mk (VStr "7", VStr "temp", VStr "0"))
    (mkState Samples.online [] [] [] [(VStr "7", VDict [("id", VStr "7")])])
  = (Raise (KeyError (VStr "data")),
     mkState Samples.online [] [] [] [(VStr "7", VDict [("id", VStr "7")])]).
Proof.
  split.
  - apply (proj1 (value_without_sensor
                    (DataItem.mk (VStr "7", VStr "temp", VStr "0"))
                    (Samples.fresh Samples.online)));
      reflexivity.
  - apply (proj2 (value_without_sensor
                    (DataItem.mk (VStr "7", VStr "temp", VStr "0"))
                    (mkState Samples.online [] [] []
                       [(VStr "7", VDict [("id", VStr "7")])]))
             [("id", VStr "7")]);
      reflexivity.
Defined.

Lemma first_value_app pre post name scale e :
  Forall (fun i => is_measurement i = true) pre ->
  find (entry_matches name scale) pre = Some e ->
  DataItem.first_value (pre ++ post) name scale = py_getitem e "value".
Proof.
  induction 1 as [|item rest Hm _ IH]; [discriminate|].
  cbn [DataItem.first_value find app]. unfold entry_matches at 1.
  destruct item as [| | | | |f]; try discriminate.
  cbn [is_measurement] in Hm. cbn [py_getitem rbind].
  destruct (dict_get f "name") as [n|]; [|discriminate].
  destruct (dict_get f "scale") as [s|]; [|discriminate].
  cbn [rbind].
  destruct (py_eq n name); cbn [andb rbind]; [|exact IH].
  destruct (py_eq s scale); [|exact IH].
  intros H. injection H as <-. reflexivity.
Qed.

(** X14: the lookup stops at the first match.  When the entries up to the
    first match are measurements, [value] is the ['value'] of that match
    whatever follows it in ['data'], malformed entries included. *)
Theorem value_ignores_rest self st fields pre post e :
  cache_getitem (_sensors st) (fst (fst (DataItem._item_id self)))
  = Ret (VDict fields) ->
  dict_get fields "data" = Some (VList (pre ++ post)) ->
  Forall (fun i => is_measurement i = true) pre ->
  find (entry_matches (snd (fst (DataItem._item_id self)))
          (snd (DataItem._item_id self))) pre = Some e ->
  exists v, py_getitem e "value" = Ret v /\
            DataItem.value self st = (Ret v, st).
Proof.
  intros Hc Hd Hpre Hf.
  destruct (find_measurement _ _ _ Hpre Hf) as [v Hv].
  exists v. split; [exact Hv|].
  rewrite (value_eq _ _ _ _ Hc Hd), (first_value_app _ _ _ _ _ Hpre Hf).
  now rewrite Hv.
Qed.

Lemma value_ignores_rest_witness :
  exists v,
    py_getitem (VDict [("name", VStr "temp"); ("scale", VStr "0");
                       ("value", VStr "21.5")]) "value" = Ret v /\
    DataItem.value (DataItem.mk (VStr "7", VStr "temp", VStr "0"))
      (mkState Samples.online [] [] []
         [(VStr "7",
           VDict [("data",
                   VList [VDict [("name", VStr "temp"); ("scale", VStr "0");
                                 ("value", VStr "21.5")];
                          VNone; VInt 3])])])
    = (Ret v,
       mkState Samples.online [] [] []
         [(VStr "7",
           VDict [("data",
                   VList [VDict [("name", VStr "temp"); ("scale", VStr "0");
                                 ("value", VStr "21.5")];
                          VNone; VInt 3])])]).
Proof.
  eapply (value_ignores_rest
            (DataItem.mk (VStr "7", VStr "temp", VStr "0")) _ _
            [VDict [("name", VStr "temp"); ("scale", VStr "0");
                    ("value", VStr "21.5")]]
            [VNone; VInt 3]);
    try reflexivity; repeat constructor.
Defined.

Lemma items_of_ok sid items :
  Forall (fun i => is_measurement i = true) items ->
  exists its,
    Views.items_of sid items = Ret its /\ Forall2 (item_from sid) items its.
Proof.
  induction 1 as [|e rest He _ (its & Hits & HF)].
  - exists []. split; [reflexivity|constructor].
  - destruct e as [| | | | |f]; try discriminate. cbn [is_measurement] in He.
    destruct (dict_get f "name") as [n|] eqn:En; [|discriminate].
    destruct (dict_get f "scale") as [s|] eqn:Es; [|discriminate].
    exists (DataItem.mk (sid, n, s) :: its). split.
    + cbn [Views.items_of py_getitem rbind]. rewrite En, Es. cbn [rbind].
      now rewrite Hits.
    + constructor; [|exact HF]. exists n, s. cbn [py_getitem].
      now rewrite En, Es.
Qed.

Lemma data_items_ok self st fields items :
  cache_getitem (_sensors st) (Sensor._sensor_id self) = Ret (VDict fields) ->
  dict_get fields "data" = Some (VList items) ->
  Forall (fun i => is_measurement i = true) items ->
  exists its,
    Views.data_items self st = (Ret its, st) /\
    Forall2 (item_from (Sensor._sensor_id self)) items its.
Proof.
  intros Hc Hd Hall.
  destruct (items_of_ok (Sensor._sensor_id self) items Hall) as (its & Hi & HF).
  exists its. split; [|exact HF].
  unfold Views.data_items, Sensor.data, Sensor._sensor, Client.sensor.
  unfold_monad. rewrite Hc. cbn [py_getitem]. rewrite Hd.
  cbn [py_iter]. now rewrite Hi.
Qed.

Lemma Forall2_in_r {A B} (R : A -> B -> Prop) l l' y :
  Forall2 R l l' -> In y l' -> exists x, In x l /\ R x y.
Proof.
  induction 1 as [|a b l l' Hab _ IH]; cbn; [tauto|].
  intros [<-|Hin]; [eauto|]. destruct (IH Hin) as (x & Hx & HR). eauto.
Qed.

Lemma find_in {A} (p : A -> bool) l x :
  In x l -> p x = true -> exists y, find p l = Some y.
Proof.
  intros Hin Hp. destruct (find p l) as [y|] eqn:E; [eauto|].
  rewrite (find_none _ _ E _ Hin) in Hp. discriminate.
Qed.

(** X15: under a cached sensor whose ['data'] lists measurements with plain
    names and scales, [data_items] yields one item per entry, in order,
    each carrying the sensor id and the entry's name and scale; and every
    item reads back, through [value], the ['value'] of an entry with its
    name and scale. *)
Theorem data_items_read_back self st fields items :
  cache_getitem (_sensors st) (Sensor._sensor_id self) = Ret (VDict fields) ->
  dict_get fields "data" = Some (VList items) ->
  Forall (fun i => is_plain_measurement i = true) items ->
  exists its,
    Views.data_items self st = (Ret its, st) /\
    Forall2 (item_from (Sensor._sensor_id self)) items its /\
    forall it,
      In it its ->
      exists e v,
        In e items /\
        entry_matches (snd (fst (DataItem._item_id it)))
          (snd (DataItem._item_id it)) e = true /\
        py_getitem e "value" = Ret v /\
        DataItem.value it st = (Ret v, st).
Proof.
  intros Hc Hd Hplain.
  assert (Hall : Forall (fun i => is_measurement i = true) items).
  { rewrite Forall_forall in *. intros i Hi. specialize (Hplain i Hi).
    unfold is_plain_measurement in Hplain.
    destruct (py_getitem i "name"); [|discriminate].
    destruct (py_getitem i "scale"); [|discriminate].
    destruct (is_measurement i); [reflexivity|discriminate]. }
  destruct (data_items_ok self st fields items Hc Hd Hall) as (its & Hi & HF).
  exists its. split; [exact Hi|]. split; [exact HF|].
  intros it Hin.
  destruct (Forall2_in_r _ _ _ _ HF Hin) as (e0 & He0 & n & s & Hn & Hs & ->).
  cbn [DataItem._item_id fst snd].
  assert (Hm : entry_matches n s e0 = true).
  { rewrite Forall_forall in Hplain. specialize (Hplain e0 He0).
    unfold is_plain_measurement in Hplain. unfold entry_matches.
    rewrite Hn, Hs in *.
    apply andb_prop in Hplain as [Hp Hhs].
    apply andb_prop in Hp as [_ Hhn].
    now rewrite !py_eq_refl. }
  destruct (find_in _ _ _ He0 Hm) as [e Hf].
  destruct (find_measurement _ _ _ Hall Hf) as [v Hv].
  destruct (find_some _ _ Hf) as [He Hme].
  exists e, v. repeat split; trivial.
  rewrite (value_eq (DataItem.mk (Sensor._sensor_id self, n, s)) st fields
             items Hc Hd).
  cbn [DataItem._item_id fst snd].
  now rewrite (first_value_find _ _ _ Hall), Hf, Hv.
Qed.

Lemma data_items_read_back_witness :
  exists its,
    Views.data_items (Sensor.mk (VStr "7")) (Samples.cached Samples.online)
    = (Ret its, Samples.cached Samples.online) /\
    Forall2 (item_from (VStr "7"))
      [VDict [("name", VStr "temp"); ("scale", VStr "0");
              ("value", VStr "21.5")]] its /\
    forall it,
      In it its ->
      exists e v,
        In e [VDict [("name", VStr "temp"); ("scale", VStr "0");
                     ("value", VStr "21.5")]] /\
        entry_matches (snd (fst (DataItem._item_id it)))
          (snd (DataItem._item_id it)) e = true /\
        py_getitem e "value" = Ret v /\
        DataItem.value it (Samples.cached Samples.online)
        = (Ret v, Samples.cached Samples.online).
Proof.
  eapply (data_items_read_back (Sensor.mk (VStr "7"))
            (Samples.cached Samples.online));
    try reflexivity; repeat constructor.
Defined.

Lemma value_returns self st fields items :
  cache_getitem (_sensors st) (fst (fst (DataItem._item_id self)))
  = Ret (VDict fields) ->
  dict_get fields "data" = Some (VList items) ->
  Forall (fun i => is_measurement i = true) items ->
  exists v, DataItem.value self st = (Ret v, st).
Proof.
  intros Hc Hd Hall.
  rewrite (value_eq _ _ _ _ Hc Hd), (first_value_find _ _ _ Hall).
  destruct (find _ items) as [e|] eqn:Hf; [|eauto].
  destruct (find_measurement _ _ _ Hall Hf) as [v Hv].
  exists v. now rewrite Hv.
Qed.

Lemma concat_items_ok st ks :
  (forall k, In k ks ->
     exists fields items,
       cache_getitem (_sensors st) k = Ret (VDict fields) /\
       dict_get fields "data" = Some (VList items) /\
       Forall (fun i => is_measurement i = true) items) ->
  exists l,
    Views.concat_items (map Sensor.mk ks) st = (Ret l, st) /\
    forall it, In it l ->
      In (fst (fst (DataItem._item_id it))) ks /\
      exists v, DataItem.value it st = (Ret v, st).
Proof.
  induction ks as [|k ks IH]; intros H.
  - exists []. split; [reflexivity|]. intros it [].
  - destruct (H k (or_introl eq_refl)) as (fields & items & Hc & Hd & Hall).
    destruct (data_items_ok (Sensor.mk k) st fields items Hc Hd Hall)
      as (its & Hi & HF).
    destruct IH as (l & Hl & Hin).
    { intros k' Hk'. apply H. now right. }
    exists (its ++ l)%list. split.
    + cbn [map Views.concat_items]. unfold bind at 1. rewrite Hi.
      unfold bind at 1. now rewrite Hl.
    + intros it Hit. apply in_app_or in Hit as [Hit|Hit].
      * destruct (Forall2_in_r _ _ _ _ HF Hit) as (e & _ & n & s & _ & _ & ->).
        cbn [DataItem._item_id fst snd Sensor._sensor_id]. split; [now left|].
        exact (value_returns (DataItem.mk (k, n, s)) st fields items Hc Hd
                 Hall).
      * destruct (Hin it Hit) as [Hk Hv]. split; [now right|exact Hv].
Qed.

(** X16: when every cached sensor id leads to a record whose ['data'] lists
    measurements, [sensor_data_items] returns normally without changing the
    client, every item it yields belongs to a cached sensor, and [value]
    of each of them returns (a value or [None]) without raising. *)
Theorem sensor_data_items_resolve st :
  (forall k, In k (map fst (_sensors st)) ->
     exists fields items,
       cache_getitem (_sensors st) k = Ret (VDict fields) /\
       dict_get fields "data" = Some (VList items) /\
       Forall (fun i => is_measurement i = true) items) ->
  exists l,
    Views.sensor_data_items st = (Ret l, st) /\
    forall it, In it l ->
      In (fst (fst (DataItem._item_id it))) (map fst (_sensors st)) /\
      exists v, DataItem.value it st = (Ret v, st).
Proof.
  intros H. destruct (concat_items_ok st (map fst (_sensors st)) H)
    as (l & Hl & Hin).
  exists l. split; [|exact Hin].
  unfold Views.sensor_data_items, Views.sensors. unfold bind at 1.
  rewrite <- (map_map fst Sensor.mk). exact Hl.
Qed.

Lemma sensor_data_items_resolve_witness :
  exists l,
    Views.sensor_data_items (Samples.cached Samples.online)
    = (Ret l, Samples.cached Samples.online) /\
    forall it, In it l ->
      In (fst (fst (DataItem._item_id it))) [VStr "7"] /\
      exists v, DataItem.value it (Samples.cached Samples.online)
                = (Ret v, Samples.cached Samples.online).
Proof.
  apply (sensor_data_items_resolve (Samples.cached Samples.online)).
  intros k [<-|[]].
  eexists. eexists. split; [reflexivity|]. split; [reflexivity|].
  repeat constructor.
Defined.

(** ** Device.str_methods *)

Lemma names_of_masked z mask keys :
  Forall (fun m => Z.land mask m = m) keys ->
  names_of (VInt (Z.land z mask)) keys = names_of (VInt z) keys.
Proof.
  induction 1 as [|m keys Hm _ IH]; [reflexivity|].
  cbn [names_of py_and rbind].
  rewrite <- Z.land_assoc, Hm, IH. reflexivity.
Qed.

Lemma names_of_int_returns z keys :
  Forall (fun m => table_get STR_METHODS m <> None) keys ->
  exists l, names_of (VInt z) keys = Ret l.
Proof.
  induction 1 as [|m keys Hm _ [l IH]]; [now exists []|].
  cbn [names_of py_and rbind]. rewrite IH.
  destruct (Z.land z m =? 0); [eauto|].
  destruct (table_get STR_METHODS m); [cbn; eauto|congruence].
Qed.

(** X17: a single method code of the registry is rendered as its name,
    without separator. *)
Theorem str_methods_of_code code name :
  In (code, name) STR_METHODS -> str_methods (VInt code) = Ret name.
Proof.
  intros Hin. cbn in Hin.
  repeat (destruct Hin as [Hin|Hin]; [injection Hin as <- <-; reflexivity|]).
  contradiction.
Qed.

Lemma str_methods_of_code_witness : str_methods (VInt DIM) = Ret "DIM".
Proof.
  apply (str_methods_of_code DIM "DIM"). cbn. tauto.
Defined.

(** X18: on every integer [str_methods] returns a string, and only the bits
    of the registry count: bit 64, which has no name, and the bits above
    [THERMOSTAT] change nothing, and a value without any registry bit gives
    the empty string. *)
Theorem str_methods_registry_bits z :
  (exists s, str_methods (VInt z) = Ret s) /\
  str_methods (VInt z) = str_methods (VInt (Z.land z registry_mask)) /\
  str_methods (VInt (Z.lor z 64)) = str_methods (VInt z) /\
  (Z.land z registry_mask = 0 -> str_methods (VInt z) = Ret "").
Proof.
  assert (Hmask : forall y,
             str_methods (VInt (Z.land y registry_mask)) = str_methods (VInt y)).
  { intros y. unfold str_methods. rewrite names_of_masked; [reflexivity|].
    repeat constructor. }
  repeat split.
  - unfold str_methods.
    destruct (names_of_int_returns z (map fst STR_METHODS)) as [l Hl].
    + repeat constructor; discriminate.
    + rewrite Hl. cbn. eauto.
  - now rewrite Hmask.
  - rewrite <- (Hmask (Z.lor z 64)), <- (Hmask z). do 2 f_equal.
    rewrite Z.land_lor_distr_l.
    replace (Z.land 64 registry_mask) with 0 by reflexivity.
    apply Z.lor_0_r.
  - intros H0. rewrite <- Hmask, H0. reflexivity.
Qed.

Lemma str_methods_registry_bits_witness :
  str_methods (VInt 64) = Ret "" /\
  str_methods (VInt (Z.lor 19 64)) = Ret "TURNON|TURNOFF|DIM".
Proof.
  destruct (str_methods_registry_bits 64) as (_ & _ & _ & H0).
  destruct (str_methods_registry_bits 19) as (_ & _ & H64 & _).
  split; [apply H0; reflexivity|]. rewrite H64. reflexivity.
Defined.

(** ** Device.dim_level, all cases *)

(** X19: with the device cached and ['statevalue'] one of [null], a
    boolean, an integer, an ASCII string, a list or an object (a float is
    not covered), [dim_level] returns [None] exactly for a string that
    [int] does not read (no decimal literal, or more than 4300 digits), and
    raises exactly for [null], a list or an object; a string literal gives
    its integer, an integer itself, a boolean 0 or 1.  The client is left as
    it was. *)
Theorem dim_level_cases self st fields sv :
  cache_getitem (_devices st) (Device._device_id self) = Ret (VDict fields) ->
  dict_get fields "statevalue" = Some sv ->
  ascii_text sv ->
  snd (Device.dim_level self st) = st /\
  (fst (Device.dim_level self st) = Ret VNone <->
   exists s, sv = VStr s /\ int_of_string s = None) /\
  ((exists e, fst (Device.dim_level self st) = Raise e) <->
   hashable sv = false \/ sv = VNone) /\
  (forall s z, sv = VStr s -> int_of_string s = Some z ->
               fst (Device.dim_level self st) = Ret (VInt z)) /\
  (forall z, sv = VInt z -> fst (Device.dim_level self st) = Ret (VInt z)) /\
  (forall b, sv = VBool b ->
             fst (Device.dim_level self st) = Ret (VInt (Z.b2z b))).
Proof.
  intros Hc Hs _. rewrite (dim_level_eq _ _ _ _ Hc Hs).
  destruct sv as [|b|z|s|l|d]; cbn [py_int Device.is_ValueError fst snd hashable].
  - repeat split; try discriminate; eauto.
    + intros (s & H & _). discriminate.
  - repeat split; try discriminate.
    + intros (s & H & _). discriminate.
    + intros [e H]. discriminate.
    + intros [H|H]; discriminate.
    + intros b0 H. now injection H as ->.
  - repeat split; try discriminate.
    + intros (s & H & _). discriminate.
    + intros [e H]. discriminate.
    + intros [H|H]; discriminate.
    + intros z0 H. now injection H as ->.
  - destruct (int_of_string s) as [z|] eqn:Ei;
      cbn [Device.is_ValueError fst snd]; repeat split; try discriminate.
    + intros (s0 & H & Hn). injection H as <-. congruence.
    + intros [e H]. discriminate.
    + intros [H|H]; discriminate.
    + intros s0 z0 H Hz. injection H as <-. congruence.
    + eauto.
    + intros [e H]. discriminate.
    + intros [H|H]; discriminate.
    + intros s0 z0 H Hz. injection H as <-. congruence.
  - repeat split; try discriminate; eauto.
    intros (s & H & _). discriminate.
  - repeat split; try discriminate; eauto.
    intros (s & H & _). discriminate.
Qed.

Lemma dim_level_cases_witness :
  (fst (Device.dim_level (Device.mk (VStr "1"))
          (Samples.cached Samples.online)) = Ret VNone <->
   exists s, VStr "42" = VStr s /\ int_of_string s = None) /\
  fst (Device.dim_level (Device.mk (VStr "1"))
         (Samples.cached Samples.online)) = Ret (VInt 42).
Proof.
  destruct (dim_level_cases (Device.mk (VStr "1"))
              (Samples.cached Samples.online) _ (VStr "42")
              eq_refl eq_refl eq_refl) as (_ & H1 & _ & H3 & _).
  split; [exact H1|]. apply (H3 "42" 42); reflexivity.
Defined.

(** ** Client.request_devices and Client.request_sensors *)

Lemma request_list_outcomes url params field st :
  joinable url = true ->
  let c := (res <- Client.request url params ;;
            if truthy res then lift (py_get res field) else ret (VList [])) in
  sent (snd (c st)) = mkRequest API_URL url params 5 :: sent st /\
  (forall e,
      _session st (sent st) (mkRequest API_URL url params 5) = Raises e ->
      is_OSError e = true -> fst (c st) = Ret (VList [])) /\
  (forall d,
      _session st (sent st) (mkRequest API_URL url params 5) = Body (VDict d) ->
      fst (c st) =
      Ret (match dict_get d "error", dict_get d field, d with
           | Some _, _, _ => VList []
           | None, Some listed, _ => listed
           | None, None, [] => VList []
           | None, None, _ :: _ => VNone
           end)).
Proof.
  intros J. cbn zeta. split; [|split].
  - unfold bind.
    pose proof (request_sent url params st (joinable_not_refused _ _ _ J))
      as H.
    destruct (Client.request url params st) as [[res|e] st1]; cbn [snd] in *;
      trivial.
    destruct (truthy res); trivial.
  - intros e He Hos. unfold bind. rewrite request_eq. cbn zeta.
    fold TIMEOUT_seconds in He. rewrite He. unfold handled. now rewrite Hos.
  - intros d Hd. unfold bind. rewrite request_eq. cbn zeta.
    fold TIMEOUT_seconds in Hd. rewrite Hd. cbn [py_contains py_getitem].
    destruct (dict_get d "error") as [x|] eqn:Ee; [reflexivity|].
    destruct d as [|kv d']; [reflexivity|].
    cbn [truthy lift py_get fst].
    destruct (dict_get (kv :: d') field); reflexivity.
Qed.

(** X20: [request_devices] sends one [devices/list] request with
    [supportedMethods=915] and [includeIgnored=0], [request_sensors] one
    [sensors/list] request with its three flags.  Each returns the empty
    list after a transport error, after a remote error and on an empty
    object; otherwise the list field as decoded, and [None] when a
    non-empty object has no such field. *)
Theorem list_requests st :
  (sent (snd (Client.request_devices st))
   = mkRequest API_URL "devices/list"
       [("supportedMethods", VInt 915); ("includeIgnored", VInt 0)] 5
     :: sent st /\
   sent (snd (Client.request_sensors st))
   = mkRequest API_URL "sensors/list"
       [("includeValues", VInt 1); ("includeScale", VInt 1);
        ("includeIgnored", VInt 0)] 5
     :: sent st) /\
  (forall e,
      _session st (sent st)
        (mkRequest API_URL "devices/list" Client.devices_params 5) = Raises e ->
      is_OSError e = true ->
      fst (Client.request_devices st) = Ret (VList [])) /\
  (forall e,
      _session st (sent st)
        (mkRequest API_URL "sensors/list" Client.sensors_params 5) = Raises e ->
      is_OSError e = true ->
      fst (Client.request_sensors st) = Ret (VList [])) /\
  (forall d,
      _session st (sent st)
        (mkRequest API_URL "devices/list" Client.devices_params 5)
      = Body (VDict d) ->
      fst (Client.request_devices st) =
      Ret (match dict_get d "error", dict_get d "device", d with
           | Some _, _, _ => VList []
           | None, Some listed, _ => listed
           | None, None, [] => VList []
           | None, None, _ :: _ => VNone
           end)) /\
  (forall d,
      _session st (sent st)
        (mkRequest API_URL "sensors/list" Client.sensors_params 5)
      = Body (VDict d) ->
      fst (Client.request_sensors st) =
      Ret (match dict_get d "error", dict_get d "sensor", d with
           | Some _, _, _ => VList []
           | None, Some listed, _ => listed
           | None, None, [] => VList []
           | None, None, _ :: _ => VNone
           end)).
Proof.
  destruct (request_list_outcomes "devices/list" Client.devices_params
              "device" st eq_refl) as (D1 & D2 & D3).
  destruct (request_list_outcomes "sensors/list" Client.sensors_params
              "sensor" st eq_refl) as (S1 & S2 & S3).
  repeat split; assumption.
Qed.

Lemma list_requests_witness :
  fst (Client.request_devices (Samples.fresh Samples.offline)) = Ret (VList [])
  /\
  fst (Client.request_sensors (Samples.fresh Samples.online))
  = Ret (VList [Samples.outdoor]) /\
  fst (Client.request_devices (Samples.fresh Samples.refusing))
  = Ret (VList []).
Proof.
  destruct (list_requests (Samples.fresh Samples.offline))
    as (_ & H1 & _).
  destruct (list_requests (Samples.fresh Samples.online))
    as (_ & _ & _ & _ & H2).
  destruct (list_requests (Samples.fresh Samples.refusing))
    as (_ & _ & _ & H3 & _).
  split; [exact (H1 _ eq_refl eq_refl)|].
  split; [exact (H2 _ eq_refl)|exact (H3 _ eq_refl)].
Defined.

(** ** What a command leaves alone *)

Lemma cache_set_same_keys c k v v0 :
  cache_get c k = Some v0 -> map fst (cache_set c k v) = map fst c.
Proof.
  induction c as [|[k1 v1] c IH]; cbn; [discriminate|].
  destruct (py_eq k1 k); cbn; [reflexivity|].
  intros H. now rewrite IH.
Qed.

Lemma set_state_frame self command st :
  Forall (fun k => hashable k = true) (map fst (_devices st)) ->
  _sensors (snd (Device.set_state self command st)) = _sensors st /\
  map fst (_devices (snd (Device.set_state self command st)))
  = map fst (_devices st) /\
  forall k, py_eq (Device._device_id self) k = false ->
            cache_get (_devices (snd (Device.set_state self command st))) k
            = cache_get (_devices st) k.
Proof.
  intros Hkeys.
  unfold Device.set_state, Device._device, Client.device. unfold_monad.
  destruct (cache_getitem (_devices st) (Device._device_id self))
    as [d|e] eqn:Hc; cbn [snd]; [|auto].
  destruct (py_setitem d "state" (VInt command)) as [d'|e]; cbn [snd]; [|auto].
  apply cache_getitem_ret in Hc as [Hh Hg].
  cbn [_devices _sensors]. repeat split.
  - exact (cache_set_same_keys _ _ _ _ Hg).
  - intros k Hk. rewrite (cache_get_set _ _ _ _ Hkeys Hh). now rewrite Hk.
Qed.

(** X21: whatever its outcome, also when it raises, a command leaves the
    sensor mapping as it was, adds no device and drops none, and changes no
    device record other than the one under its own id (the ids of the
    device mapping being hashable, as they are after a refresh). *)
Theorem command_touches_own_device self command params st :
  Forall (fun k => hashable k = true) (map fst (_devices st)) ->
  _sensors (snd (Device._execute self command params st)) = _sensors st /\
  map fst (_devices (snd (Device._execute self command params st)))
  = map fst (_devices st) /\
  forall k, py_eq (Device._device_id self) k = false ->
            cache_get (_devices (snd (Device._execute self command params st)))
              k
            = cache_get (_devices st) k.
Proof.
  intros Hkeys.
  destruct (table_get API_METHODS command) as [m|] eqn:Hm.
  - rewrite (_execute_eq _ _ _ _ _ Hm).
    pose proof (execute_frame m
                  (dict_set params "id" (Device._device_id self)) st) as F.
    destruct (Client.execute m _ st) as [[ok|e] st1]; cbn [snd] in *;
      destruct F as (Fd & Fs & _).
    + destruct (truthy ok); cbn [snd].
      * assert (Hkeys1 : Forall (fun k => hashable k = true)
                           (map fst (_devices st1))) by now rewrite Fd.
        destruct (set_state_frame self command st1 Hkeys1) as (G1 & G2 & G3).
        destruct (Device.set_state self command st1) as [[[]|e] st2];
          cbn [snd] in *; rewrite G1, G2, Fd, Fs;
          (repeat split; trivial; intros k Hk; rewrite (G3 k Hk), Fd;
           reflexivity).
      * rewrite Fd, Fs. auto.
    + rewrite Fd, Fs. auto.
  - unfold Device._execute. rewrite Hm. cbn. auto.
Qed.

Lemma command_touches_own_device_witness :
  cache_get
    (_devices (snd (Device.turn_on (Device.mk (VStr "1"))
                      (Samples.cached Samples.online))))
    (VStr "2")
  = Some Samples.switch.
Proof.
  destruct (command_touches_own_device (Device.mk (VStr "1")) TURNON []
              (Samples.cached Samples.online)) as (_ & _ & H).
  - repeat constructor.
  - unfold Device.turn_on. rewrite (H (VStr "2") eq_refl). reflexivity.
Defined.
